(** * Academic records service (acad-service/main.py)

    A shallow embedding of the two data endpoints of the service,
    [get_mahasiswas] and [calculate_ips], together with the helper
    [convert_grade_to_weight] and the connection context manager
    [get_db_connection].

    Python values are modelled as follows.
    - [str] is [string], holding the UTF-8 encoding of the text, one
      [ascii] per byte; [len] counts its characters, not its bytes;
      [str.upper] acts on the letters a-z and leaves every other byte
      alone.
    - [int] is [Z] (unbounded).
    - [float] is an IEEE 754 binary64 number, [spec_float] with precision 53
      and maximal exponent 1024; [+], [*] and [/] round to nearest, ties to
      even, exactly as the operations of [SpecFloat] do.
    - a [dict] is an association list in insertion order.
    - a raised exception is the [Raise] branch of [result].
    - the relational store is a record of what each driver call answers,
      and every endpoint returns, next to its outcome, the list of driver
      calls it made. *)

From Stdlib Require Import ZArith List String Ascii Bool Lia Permutation.
From Stdlib Require Import DecimalString.
From Stdlib Require Import Floats.SpecFloat.
Import ListNotations.
Local Open Scope string_scope.
Local Open Scope Z_scope.

(* ================================================================== *)
(** ** Exceptions and the error monad *)

(** Any exception other than [HTTPException]: its class name and the text
    that [str(e)] gives. *)
Record py_error := PyError { exc_class : string; exc_msg : string }.

Inductive exn :=
| HTTPException (status_code : Z) (detail : string)
| Other (e : py_error).

(** [str(e)]; an [HTTPException] prints as its status code, a colon and its
    detail. *)
Definition str (e : exn) : string :=
  match e with
  | HTTPException c d => NilZero.string_of_int (Z.to_int c) ++ ": " ++ d
  | Other e => exc_msg e
  end.

Inductive result (A : Type) :=
| Ok (a : A)
| Raise (e : exn).
Arguments Ok {A} a.
Arguments Raise {A} e.

Definition bind {A B} (m : result A) (k : A -> result B) : result B :=
  match m with
  | Ok a => k a
  | Raise e => Raise e
  end.

Declare Scope py_scope.
Delimit Scope py_scope with py.
Notation "x <- m ;; k" := (bind m (fun x => k))
  (at level 61, m at next level, right associativity) : py_scope.
Notation "' pat <- m ;; k" := (bind m (fun x => match x with pat => k end))
  (at level 61, pat pattern, m at next level, right associativity) : py_scope.
Local Open Scope py_scope.

(* ================================================================== *)
(** ** Python floats *)

Module PyFloat.

Definition prec : Z := 53.
Definition emax : Z := 1024.

Definition add : spec_float -> spec_float -> spec_float := SFadd prec emax.
Definition mul : spec_float -> spec_float -> spec_float := SFmul prec emax.
Definition div : spec_float -> spec_float -> spec_float := SFdiv prec emax.
Definition leb : spec_float -> spec_float -> bool := SFleb.

(** The double nearest to [n / d] for a sign and two positive integers:
    the quotient of two integers is rounded once. *)
Definition nearest_quotient (s : bool) (n d : positive) : spec_float :=
  div (S754_finite s n 0) (S754_finite false d 0).

(** The value of a decimal literal [n / 10^k], as the parser produces it
    ([decimal 275 2] is the literal [2.75]). *)
Definition decimal (n : Z) (k : positive) : spec_float :=
  match n with
  | Z0 => S754_zero false
  | Zpos p => nearest_quotient false p (10 ^ k)%positive
  | Zneg p => nearest_quotient true p (10 ^ k)%positive
  end.

(** Conversion of an [int] to a [float], as the arithmetic operators do it
    for a mixed operation: correctly rounded, [None] when the integer is
    too large (Python raises [OverflowError]). *)
Definition of_int_ieee (n : Z) : spec_float := binary_normalize prec emax n 0 false.

Definition of_int (n : Z) : option spec_float :=
  match of_int_ieee n with
  | S754_infinity _ => None
  | f => Some f
  end.

Definition is_zero (x : spec_float) : bool :=
  match x with
  | S754_zero _ => true
  | _ => false
  end.

(** The integer nearest to [n / d] for [d > 0], ties to even. *)
Definition div_half_even (n d : Z) : Z :=
  let q := n / d in
  let r := n mod d in
  match 2 * r ?= d with
  | Lt => q
  | Gt => q + 1
  | Eq => if Z.even q then q else q + 1
  end.

(** [m * 2^e * 100] rounded to an integer, ties to even. *)
Definition hundredths (m : positive) (e : Z) : Z :=
  match e with
  | Zneg p => div_half_even (100 * Zpos m) (2 ^ Zpos p)
  | _ => 100 * Zpos m * 2 ^ e
  end.

(** [round(x, 2)]: the exact value of [x] is rounded to two decimals,
    ties to even, and the decimal obtained is converted back to the
    nearest double; zeros keep their sign, infinities and NaN are
    returned unchanged. *)
Definition round2 (x : spec_float) : spec_float :=
  match x with
  | S754_finite s m e =>
      match hundredths m e with
      | Zpos k => nearest_quotient s k 100
      | _ => S754_zero s
      end
  | _ => x
  end.

End PyFloat.

(** [x * n] and [x / n] for a float [x] and an int [n]. *)
Definition float_mul_int (x : spec_float) (n : Z) : result spec_float :=
  match PyFloat.of_int n with
  | Some y => Ok (PyFloat.mul x y)
  | None => Raise (Other (PyError "OverflowError" "int too large to convert to float"))
  end.

Definition float_div_int (x : spec_float) (n : Z) : result spec_float :=
  match PyFloat.of_int n with
  | Some y =>
      if PyFloat.is_zero y
      then Raise (Other (PyError "ZeroDivisionError" "float division by zero"))
      else Ok (PyFloat.div x y)
  | None => Raise (Other (PyError "OverflowError" "int too large to convert to float"))
  end.

(* ================================================================== *)
(** ** Values, dictionaries and strings *)

#[warnings="-register-all"]
Inductive value :=
| VNone
| VStr (s : string)
| VInt (n : Z)
| VFloat (f : spec_float)
| VDict (d : list (string * value))
| VList (l : list value).

Fixpoint dict_get {V} (d : list (string * V)) (k : string) : option V :=
  match d with
  | [] => None
  | (k', v) :: d' => if String.eqb k' k then Some v else dict_get d' k
  end.

(** [d.get(k, default)] *)
Definition dict_get_default {V} (d : list (string * V)) (k : string) (default : V) : V :=
  match dict_get d k with
  | Some v => v
  | None => default
  end.

Definition keys {V} (d : list (string * V)) : list string := map fst d.

Definition is_lower (c : ascii) : bool :=
  ((97 <=? nat_of_ascii c) && (nat_of_ascii c <=? 122))%nat.

Definition is_upper (c : ascii) : bool :=
  ((65 <=? nat_of_ascii c) && (nat_of_ascii c <=? 90))%nat.

Definition upper_char (c : ascii) : ascii :=
  if is_lower c then ascii_of_nat (nat_of_ascii c - 32) else c.

Definition lower_char (c : ascii) : ascii :=
  if is_upper c then ascii_of_nat (nat_of_ascii c + 32) else c.

(** [s.upper()] and [s.lower()] *)
Fixpoint upper (s : string) : string :=
  match s with
  | EmptyString => EmptyString
  | String c s' => String (upper_char c) (upper s')
  end.

Fixpoint lower (s : string) : string :=
  match s with
  | EmptyString => EmptyString
  | String c s' => String (lower_char c) (lower s')
  end.

(** A byte of the form 10xxxxxx: in UTF-8 the second, third or fourth byte
    of a character, never its first and never a character of its own. *)
Definition is_continuation (c : ascii) : bool :=
  ((128 <=? nat_of_ascii c) && (nat_of_ascii c <=? 191))%nat.

(** [len(s)]: the number of characters (code points) of [s], which is what
    the [min_length] of a query parameter is compared with.  Every
    character of the encoding has exactly one byte that is not a
    continuation byte. *)
Fixpoint len (s : string) : nat :=
  match s with
  | EmptyString => 0%nat
  | String c s' => if is_continuation c then len s' else S (len s')
  end.

(* ================================================================== *)
(** ** The relational store *)

(** Modelled from the spec: the persisted schema, which is not part of the
    service's source.  A row of [mahasiswa(nim, nama, jurusan, angkatan)],
    columns in this order. *)
Record mahasiswa_row := MahasiswaRow {
  col_nim : string;
  col_nama : string;
  col_jurusan : string;
  col_angkatan : Z
}.

(** A row of the join of [mahasiswa], [krs] and [mata_kuliah] that
    [calculate_ips] selects; [nilai] is [None] for SQL NULL. *)
Record krs_row := KrsRow {
  nim : string;
  nama : string;
  jurusan : string;
  nilai : option string;
  sks : Z
}.

(** What the driver answers: [psycopg2.connect], the two queries
    ([execute] followed by [fetchall]) and [commit] either succeed or raise
    an error of the driver; [rollback] and [close] succeed. *)
Record Store := {
  connect_error : option py_error;
  select_mahasiswa : py_error + list mahasiswa_row;
  select_krs : string -> py_error + list krs_row;
  commit_error : option py_error
}.

Inductive query :=
| SelectMahasiswa
| SelectKrs (nim_param : string).

Inductive db_event :=
| EvConnect
| EvExecute (q : query)
| EvCommit
| EvRollback
| EvClose.

(** A computation that talks to the store: its outcome and the driver calls
    it made, oldest first. *)
Definition io (A : Type) : Type := result A * list db_event.

(** [with get_db_connection() as conn: body] (lines 43-53): the connection
    is opened, the body runs, and then the transaction is committed; an
    exception of the body or of the commit is followed by a rollback and
    raised again; the connection is closed in every case. *)
Definition get_db_connection {A} (st : Store) (body : io A) : io A :=
  match connect_error st with
  | Some e => (Raise (Other e), [EvConnect])
  | None =>
      let (r, tr) := body in
      match r with
      | Ok v =>
          match commit_error st with
          | None => (Ok v, EvConnect :: tr ++ [EvCommit; EvClose])
          | Some e => (Raise (Other e), EvConnect :: tr ++ [EvCommit; EvRollback; EvClose])
          end
      | Raise e => (Raise e, EvConnect :: tr ++ [EvRollback; EvClose])
      end
  end.

(** [cursor.execute(query); rows = cursor.fetchall()] *)
Definition fetchall {R} (q : query) (answer : py_error + list R) : io (list R) :=
  match answer with
  | inr rows => (Ok rows, [EvExecute q])
  | inl e => (Raise (Other e), [EvExecute q])
  end.

(* ================================================================== *)
(** ** GET /api/acad/mahasiswa *)

Definition mahasiswa_dict (row : mahasiswa_row) : value :=
  VDict [("nim", VStr (col_nim row));
         ("nama", VStr (col_nama row));
         ("jurusan", VStr (col_jurusan row));
         ("angkatan", VInt (col_angkatan row))].

(** Lines 71-84. *)
Definition get_mahasiswas (st : Store) : io value :=
  let (r, tr) :=
    get_db_connection st
      (let (r, tr) := fetchall SelectMahasiswa (select_mahasiswa st) in
       (rows <- r ;; Ok (VList (map mahasiswa_dict rows)), tr)) in
  match r with
  | Ok v => (Ok v, tr)
  | Raise e => (Raise (HTTPException 500 (str e)), tr)
  end.

(* ================================================================== *)
(** ** GET /api/acad/ips *)

(** Lines 88-94. *)
Definition grade_map : list (string * spec_float) :=
  [("A", PyFloat.decimal 40 1); ("B+", PyFloat.decimal 35 1);
   ("B", PyFloat.decimal 30 1); ("B-", PyFloat.decimal 275 2);
   ("C+", PyFloat.decimal 25 1); ("C", PyFloat.decimal 20 1);
   ("D", PyFloat.decimal 10 1); ("E", PyFloat.decimal 0 1)].

(** The argument is whatever the row holds: a string, or [None] for NULL,
    on which the call of [upper] raises. *)
Definition convert_grade_to_weight (nilai_huruf : option string) : result spec_float :=
  match nilai_huruf with
  | Some s => Ok (dict_get_default grade_map (upper s) (PyFloat.decimal 0 1))
  | None =>
      Raise (Other (PyError "AttributeError"
                            "'NoneType' object has no attribute 'upper'"))
  end.

(** One turn of the loop over the rows (lines 130-142), on the pair
    [(total_bobot_sks, total_sks)]. *)
Definition accumulate_row (acc : spec_float * Z) (row : krs_row) : result (spec_float * Z) :=
  let (total_bobot_sks, total_sks) := acc in
  bobot_nilai <- convert_grade_to_weight (nilai row) ;;
  bobot_sks_matkul <- float_mul_int bobot_nilai (sks row) ;;
  Ok (PyFloat.add total_bobot_sks bobot_sks_matkul, total_sks + sks row).

Fixpoint accumulate (rows : list krs_row) (acc : spec_float * Z) : result (spec_float * Z) :=
  match rows with
  | [] => Ok acc
  | row :: rows' => acc' <- accumulate_row acc row ;; accumulate rows' acc'
  end.

(** The quotient, guarded against a zero total (lines 144-148). *)
Definition ips_of (total_bobot_sks : spec_float) (total_sks : Z) : result spec_float :=
  if (total_sks =? 0)%Z then Ok (PyFloat.decimal 0 1)
  else float_div_int total_bobot_sks total_sks.

(** The body of [calculate_ips] once the rows are fetched (lines
    122-162). *)
Definition calculate_ips_rows (nim_param : string) (rows : list krs_row) : result value :=
  match rows with
  | [] => Raise (HTTPException 404 ("Data KRS tidak ditemukan untuk NIM " ++ nim_param))
  | first :: _ =>
      '(total_bobot_sks, total_sks) <- accumulate rows (PyFloat.decimal 0 1, 0) ;;
      ips <- ips_of total_bobot_sks total_sks ;;
      let mahasiswa_info :=
        VDict [("nim", VStr (nim first));
               ("nama", VStr (nama first));
               ("jurusan", VStr (jurusan first))] in
      Ok (VDict [("mahasiswa", mahasiswa_info);
                 ("total_sks_diambil", VInt total_sks);
                 ("total_bobot_sks", VFloat (PyFloat.round2 total_bobot_sks));
                 ("ips", VFloat (PyFloat.round2 ips))])
  end.

(** The two [except] clauses of [calculate_ips], in their order (lines
    164-169). *)
Definition ips_handlers {A} (r : result A) : result A :=
  match r with
  | Ok v => Ok v
  | Raise (HTTPException c d) => Raise (HTTPException c d)
  | Raise e => Raise (HTTPException 500 ("Terjadi kesalahan server: " ++ str e))
  end.

(** Lines 97-169. *)
Definition calculate_ips (st : Store) (nim_param : string) : io value :=
  let (r, tr) :=
    get_db_connection st
      (let (r, tr) := fetchall (SelectKrs nim_param) (select_krs st nim_param) in
       (rows <- r ;; calculate_ips_rows nim_param rows, tr)) in
  (ips_handlers r, tr).

(* ================================================================== *)
(** ** The HTTP surface *)

(** What a request ends in: the endpoint function returned a value, which
    the framework then serialises into the response; or an [HTTPException]
    was raised, whose status and detail become the response; or a query
    parameter failed its declared validation, which the framework answers
    with status 422 without entering the function. *)
Inductive reply :=
| Returned (body : value)
| ReplyError (status : Z) (detail : string)
| ReplyInvalid.

Definition error_status (r : reply) : option Z :=
  match r with
  | Returned _ => None
  | ReplyError c _ => Some c
  | ReplyInvalid => Some 422
  end.

Definition reply_of (r : result value) : reply :=
  match r with
  | Ok v => Returned v
  | Raise (HTTPException c d) => ReplyError c d
  | Raise (Other _) => ReplyError 500 "Internal Server Error"
  end.

Definition route_mahasiswa (st : Store) : reply * list db_event :=
  let (r, tr) := get_mahasiswas st in (reply_of r, tr).

(** [nim: str = Query(..., min_length=5)]: the parameter is required and
    its length in characters is checked before the function is entered. *)
Definition route_ips (st : Store) (nim_query : option string) : reply * list db_event :=
  match nim_query with
  | None => (ReplyInvalid, [])
  | Some n =>
      if (len n <? 5)%nat then (ReplyInvalid, [])
      else let (r, tr) := calculate_ips st n in (reply_of r, tr)
  end.

(* ================================================================== *)
(** ** The computation in the words of the specification *)

Definition zero : spec_float := PyFloat.decimal 0 1.
Definition four : spec_float := PyFloat.decimal 40 1.

(** The weight of a letter grade: the entry of the table for the grade in
    upper case, 0.0 when there is none. *)
Definition grade_weight (s : string) : spec_float :=
  dict_get_default grade_map (upper s) zero.

(** The weight the specification gives a row: a missing grade counts as
    0.0. *)
Definition row_weight (row : krs_row) : spec_float :=
  match nilai row with
  | Some s => grade_weight s
  | None => zero
  end.

(** The weighted contribution of a row, neither factor rounded. *)
Definition contribution (row : krs_row) : spec_float :=
  PyFloat.mul (row_weight row) (PyFloat.of_int_ieee (sks row)).

(** The sum of a list of floats, taken from left to right from 0.0. *)
Definition float_sum (l : list spec_float) : spec_float :=
  fold_left PyFloat.add l zero.

Definition weighted_sum (rows : list krs_row) : spec_float :=
  float_sum (map contribution rows).

Definition total_credits (rows : list krs_row) : Z :=
  fold_right Z.add 0 (map sks rows).

Definition gpa (rows : list krs_row) : spec_float :=
  if (total_credits rows =? 0)%Z then zero
  else PyFloat.div (weighted_sum rows) (PyFloat.of_int_ieee (total_credits rows)).

(** The three quantities before any rounding, as [calculate_ips_rows]
    computes them. *)
Definition unrounded_totals (rows : list krs_row) : result (spec_float * Z * spec_float) :=
  '(total_bobot_sks, total_sks) <- accumulate rows (zero, 0) ;;
  ips <- ips_of total_bobot_sks total_sks ;;
  Ok (total_bobot_sks, total_sks, ips).

(** The totals and the GPA of a response, without the student's data. *)
Definition totals_and_gpa (nim_param : string) (rows : list krs_row) : result (list (option value)) :=
  v <- calculate_ips_rows nim_param rows ;;
  match v with
  | VDict d => Ok [dict_get d "total_sks_diambil"; dict_get d "total_bobot_sks"; dict_get d "ips"]
  | _ => Ok []
  end.

Definition has_grade (row : krs_row) : Prop := nilai row <> None.

(** The integer converts to a float without [OverflowError]. *)
Definition fits_float (n : Z) : Prop := PyFloat.of_int n <> None.

(** What the store answers to the listing as a whole: the rows, or the
    first error met on the way. *)
Definition store_listing (st : Store) : py_error + list mahasiswa_row :=
  match connect_error st with
  | Some e => inl e
  | None =>
      match select_mahasiswa st with
      | inl e => inl e
      | inr rows =>
          match commit_error st with
          | Some e => inl e
          | None => inr rows
          end
      end
  end.

(* ================================================================== *)
(** ** Example data *)

Definition enrollment (grade : option string) (credit_hours : Z) : krs_row :=
  KrsRow "12345" "Budi" "Informatika" grade credit_hours.

(** Scenario 1 of the specification. *)
Definition scenario_rows : list krs_row :=
  [enrollment (Some "A") 3; enrollment (Some "B+") 4; enrollment (Some "C") 2].

(** A store that is up, holds two students, and answers the enrollment
    query for "12345" with [rows] and for any other identifier with no
    row. *)
Definition store_with (rows : list krs_row) : Store :=
  {| connect_error := None;
     select_mahasiswa := inr [MahasiswaRow "12345" "Budi" "Informatika" 2023;
                              MahasiswaRow "67890" "Sari" "Akuntansi" 2022];
     select_krs := fun q => if String.eqb q "12345" then inr rows else inr [];
     commit_error := None |}.

(** A store that is up and holds nothing. *)
Definition store_empty : Store :=
  {| connect_error := None;
     select_mahasiswa := inr [];
     select_krs := fun _ => inr [];
     commit_error := None |}.

(** A store that cannot be reached. *)
Definition store_down : Store :=
  {| connect_error := Some (PyError "OperationalError" "connection refused");
     select_mahasiswa := inr [];
     select_krs := fun _ => inr [];
     commit_error := None |}.

(* ================================================================== *)
(** ** Exactly represented quantities *)

(** The table in quarters of a grade point: every weight is a multiple of
    0.25. *)
Definition grade_quarters : list (string * Z) :=
  [("A", 16); ("B+", 14); ("B", 12); ("B-", 11);
   ("C+", 10); ("C", 8); ("D", 4); ("E", 0)].

Definition quarters (s : string) : Z :=
  dict_get_default grade_quarters (upper s) 0.

Definition row_quarters (row : krs_row) : Z :=
  match nilai row with
  | Some s => quarters s
  | None => 0
  end.

(** The weighted sum over the integers, in quarters. *)
Definition quarter_sum (rows : list krs_row) : Z :=
  fold_right Z.add 0 (map (fun row => row_quarters row * sks row) rows).

(** The double that holds [a * 2^t]; no rounding takes place when
    [0 <= a < 2^53] and [t] is in range. *)
Definition exact (a t : Z) : spec_float :=
  binary_normalize PyFloat.prec PyFloat.emax a t false.

(** For [0 < a < 2^53]: the shift that brings [a] to 53 bits, and the
    mantissa obtained. *)
Definition nexp (a : Z) : Z := 52 - Z.log2 a.
Definition nman (a : Z) : Z := a * 2 ^ nexp a.

(** A double between 0.0 and 4.0, by its representation. *)
Definition upto_four (f : spec_float) : Prop :=
  f = S754_zero false \/
  exists m e, f = S754_finite false m e /\ 2 ^ 52 <= Zpos m < 2 ^ 53 /\
              (e < -50 \/ (e = -50 /\ Zpos m = 2 ^ 52)).

(** [0.0 <= x <= 4.0] *)
Definition in_0_4 (x : spec_float) : Prop :=
  PyFloat.leb zero x = true /\ PyFloat.leb x four = true.

(** The doubles nearest to 0.01, 0.02, ..., 4.00. *)
Definition hundredths_upto_four : list spec_float :=
  map (fun k => PyFloat.nearest_quotient false (Pos.of_nat k) 100) (seq 1 400).

(* ================================================================== *)
(** ** Start-up, and further example data *)

(** [startup_event] (lines 55-61): what it prints, in order, and the driver
    calls it makes.  The block under [with] holds the first [print] only;
    it is entered when the connection was opened.  Any exception, of
    [connect] or of the commit that follows the block, is caught and
    printed; nothing is raised. *)
Definition startup_event (st : Store) : list string * list db_event :=
  let (r, tr) := get_db_connection st (@Ok unit tt, []) in
  let entered :=
    match connect_error st with
    | None => ["Acad Service: Connected to PostgreSQL"]
    | Some _ => []
    end in
  match r with
  | Ok _ => (entered, tr)
  | Raise e =>
      ((entered
        ++ [String.append "Acad Service: PostgreSQL connection error: " (str e)])%list, tr)
  end.

(** A store whose enrollment query raises. *)
Definition store_query_error : Store :=
  {| connect_error := None;
     select_mahasiswa := inl (PyError "ProgrammingError" "relation krs does not exist");
     select_krs := fun _ => inl (PyError "ProgrammingError" "relation krs does not exist");
     commit_error := None |}.

(** A store that answers the enrollment query with [rows] and then fails
    to commit. *)
Definition store_commit_error (rows : list krs_row) : Store :=
  {| connect_error := None;
     select_mahasiswa := inr [];
     select_krs := fun _ => inr rows;
     commit_error := Some (PyError "OperationalError" "server closed the connection") |}.

(* ================================================================== *)
(** * Facts about binary64 arithmetic

    The weights are multiples of 0.25 and the credit hours are integers, so
    that, while the numbers stay below 2^53 quarters, every product and
    every sum of the loop is a double and no operation rounds.  This part
    proves it from the definitions of [SpecFloat]: an operation whose exact
    result [a * 2^t] has [0 <= a < 2^53] returns [exact a t]. *)

(** The number of binary digits, in terms of [Z.log2]. *)
Lemma digits2_pos_size p : digits2_pos p = Pos.size p.
Proof. induction p; simpl; congruence. Qed.

Lemma Zdigits2_log2 p : Zpos (digits2_pos p) = Z.log2 (Zpos p) + 1.
Proof.
  rewrite digits2_pos_size. destruct p; simpl; lia.
Qed.

Lemma Zdigits2_pos_log2 z : 0 < z -> Zdigits2 z = Z.log2 z + 1.
Proof.
  destruct z; try lia. intros _. apply Zdigits2_log2.
Qed.

Lemma log2_normal c : 2 ^ 52 <= c < 2 ^ 53 -> Z.log2 c = 52.
Proof. intros H. apply Z.log2_unique; lia. Qed.

(** Shifting a mantissa to the left multiplies it by a power of two. *)
Lemma iter_xO_pow m d : Zpos (Pos.iter xO m d) = Zpos m * 2 ^ Zpos d.
Proof.
  revert m. induction d using Pos.peano_ind; intros m.
  - simpl. lia.
  - rewrite Pos.iter_succ. rewrite Pos2Z.inj_xO, IHd.
    rewrite Pos2Z.inj_succ, Z.pow_succ_r by lia. lia.
Qed.

(** Shifting to the right a mantissa whose low bits are zero loses
    nothing. *)
Lemma shr_1_double m : 0 <= m ->
  shr_1 {| shr_m := 2 * m; shr_r := false; shr_s := false |}
  = {| shr_m := m; shr_r := false; shr_s := false |}.
Proof. destruct m; simpl; try reflexivity; lia. Qed.

Lemma pow2_xO n : 2 ^ Zpos n~0 = 2 ^ Zpos n * 2 ^ Zpos n.
Proof. rewrite Pos2Z.inj_xO, <- Z.pow_add_r by lia. f_equal. lia. Qed.

Lemma pow2_xI n : 2 ^ Zpos n~1 = 2 * (2 ^ Zpos n * 2 ^ Zpos n).
Proof.
  rewrite Pos2Z.inj_xI, Z.pow_add_r, Z.pow_1_r by lia.
  rewrite <- Z.pow_add_r by lia. replace (2 * Zpos n) with (Zpos n + Zpos n) by lia. ring.
Qed.

Lemma iter_shr_exact n : forall m, 0 <= m ->
  iter_pos shr_1 n {| shr_m := m * 2 ^ Zpos n; shr_r := false; shr_s := false |}
  = {| shr_m := m; shr_r := false; shr_s := false |}.
Proof.
  induction n as [n IH|n IH|]; intros m Hm.
  - rewrite pow2_xI.
    replace (m * (2 * (2 ^ Zpos n * 2 ^ Zpos n))) with (2 * ((m * 2 ^ Zpos n) * 2 ^ Zpos n)) by ring.
    cbn [iter_pos]. rewrite shr_1_double by lia. rewrite IH by lia. apply IH; lia.
  - rewrite pow2_xO. rewrite Z.mul_assoc.
    cbn [iter_pos]. rewrite IH by lia. apply IH; lia.
  - rewrite Z.pow_1_r. replace (m * 2) with (2 * m) by ring. apply shr_1_double; lia.
Qed.

(** A mantissa of 53 bits is not shifted. *)
Lemma shr_fexp_normal c e l : 2 ^ 52 <= c < 2 ^ 53 -> -1074 <= e ->
  shr_fexp PyFloat.prec PyFloat.emax c e l = (shr_record_of_loc c l, e).
Proof.
  intros Hc He. unfold shr_fexp.
  rewrite Zdigits2_pos_log2 by lia. rewrite (log2_normal c Hc).
  unfold fexp, emin, PyFloat.prec, PyFloat.emax.
  replace (Z.max (52 + 1 + e - 53) (3 - 1024 - 53) - e) with 0 by lia.
  reflexivity.
Qed.

(** Rounding [c * 2^k] at exponent [e - k], for a mantissa [c] of 53 bits,
    gives [c] at exponent [e]. *)
Lemma binary_round_aux_exact s c k e :
  2 ^ 52 <= Zpos c < 2 ^ 53 -> 0 <= k -> -1074 <= e <= 971 ->
  binary_round_aux PyFloat.prec PyFloat.emax s (Zpos c * 2 ^ k) (e - k) loc_Exact = S754_finite s c e.
Proof.
  intros Hc Hk He. unfold binary_round_aux.
  assert (Hsh : shr_fexp PyFloat.prec PyFloat.emax (Zpos c * 2 ^ k) (e - k) loc_Exact
                = ({| shr_m := Zpos c; shr_r := false; shr_s := false |}, e)).
  { unfold shr_fexp.
    assert (0 < 2 ^ k) by (apply Z.pow_pos_nonneg; lia).
    rewrite Zdigits2_pos_log2 by lia.
    rewrite Z.log2_mul_pow2 by lia. rewrite (log2_normal _ Hc).
    unfold fexp, emin, PyFloat.prec, PyFloat.emax.
    replace (Z.max (k + 52 + 1 + (e - k) - 53) (3 - 1024 - 53) - (e - k)) with k by lia.
    destruct k as [|p|p]; [| |lia].
    - rewrite Z.pow_0_r, Z.mul_1_r, Z.sub_0_r. reflexivity.
    - unfold shr, shr_record_of_loc. rewrite iter_shr_exact by lia.
      f_equal. lia. }
  rewrite Hsh. simpl shr_m. simpl loc_of_shr_record. simpl round_nearest_even.
  rewrite shr_fexp_normal by lia. simpl.
  replace (e <=? 971) with true by (symmetry; apply Z.leb_le; lia).
  reflexivity.
Qed.

(** The normal form of [a * 2^t] is [nman a * 2^(t - nexp a)]. *)
Lemma nexp_nonneg a : 0 < a < 2 ^ 53 -> 0 <= nexp a.
Proof.
  intros H. unfold nexp.
  assert (Z.log2 a < 53) by (apply Z.log2_lt_pow2; lia). lia.
Qed.

Lemma nman_normal a : 0 < a < 2 ^ 53 -> 2 ^ 52 <= nman a < 2 ^ 53.
Proof.
  intros H. pose proof (nexp_nonneg a H) as Hn.
  destruct (Z.log2_spec a) as [Hl Hu]; [lia|].
  assert (Hlog : 0 <= Z.log2 a) by apply Z.log2_nonneg.
  unfold nman. unfold nexp in *.
  assert (E1 : 2 ^ 52 = 2 ^ Z.log2 a * 2 ^ (52 - Z.log2 a)).
  { rewrite <- Z.pow_add_r by lia. f_equal. lia. }
  assert (E2 : 2 ^ 53 = 2 ^ Z.succ (Z.log2 a) * 2 ^ (52 - Z.log2 a)).
  { rewrite <- Z.pow_add_r by lia. f_equal. lia. }
  assert (0 < 2 ^ (52 - Z.log2 a)) by (apply Z.pow_pos_nonneg; lia).
  rewrite E1 at 1. rewrite E2. split.
  - apply Z.mul_le_mono_nonneg_r; lia.
  - apply Z.mul_lt_mono_pos_r; lia.
Qed.

(** Rounding an integer multiple of a power of two that has at most 53
    significant bits gives its normal form. *)
Lemma binary_round_exact s (n : positive) a J t :
  0 < a < 2 ^ 53 -> 0 <= J -> Zpos n = a * 2 ^ J -> -1022 <= t <= 971 ->
  binary_round PyFloat.prec PyFloat.emax s n (t - J) = S754_finite s (Z.to_pos (nman a)) (t - nexp a).
Proof.
  intros Ha HJ Hn Ht.
  pose proof (nexp_nonneg a Ha) as Hne. pose proof (nman_normal a Ha) as Hnm.
  assert (Hlog : 0 <= Z.log2 a) by apply Z.log2_nonneg.
  assert (Hc : Zpos (Z.to_pos (nman a)) = nman a) by (apply Z2Pos.id; lia).
  assert (Hne' : nexp a <= 52) by (unfold nexp; lia).
  unfold binary_round. rewrite Zdigits2_log2, Hn, Z.log2_mul_pow2 by lia.
  unfold fexp, emin, PyFloat.prec, PyFloat.emax.
  replace (Z.max (J + Z.log2 a + 1 + (t - J) - 53) (3 - 1024 - 53)) with (t - nexp a)
    by (unfold nexp; lia).
  unfold shl_align.
  destruct (t - nexp a - (t - J)) as [|k|k] eqn:Ek.
  - replace (Zpos n) with (nman a * 2 ^ 0).
    + replace (t - J) with (t - nexp a - 0) by lia. rewrite <- Hc at 1.
      apply binary_round_aux_exact; lia.
    + rewrite Z.pow_0_r, Z.mul_1_r, Hn. unfold nman. do 2 f_equal. lia.
  - replace (Zpos n) with (nman a * 2 ^ Zpos k).
    + replace (t - J) with (t - nexp a - Zpos k) by lia. rewrite <- Hc at 1.
      apply binary_round_aux_exact; lia.
    + rewrite Hn. unfold nman. rewrite <- Z.mul_assoc, <- Z.pow_add_r by lia.
      do 2 f_equal. lia.
  - rewrite iter_xO_pow, Hn.
    replace (a * 2 ^ J * 2 ^ Zpos k) with (nman a * 2 ^ 0).
    + replace (t - nexp a) with (t - nexp a - 0) at 1 by lia. rewrite <- Hc at 1.
      apply binary_round_aux_exact; lia.
    + rewrite Z.pow_0_r, Z.mul_1_r. unfold nman. rewrite <- Z.mul_assoc, <- Z.pow_add_r by lia.
      do 2 f_equal. lia.
Qed.

Lemma exact_shift a J t :
  0 <= a < 2 ^ 53 -> 0 <= J -> -1022 <= t <= 971 ->
  exact (a * 2 ^ J) (t - J) = exact a t.
Proof.
  intros Ha HJ Ht. unfold exact.
  destruct (Z.eq_dec a 0) as [->|Hz]; [reflexivity|].
  assert (0 < 2 ^ J) by (apply Z.pow_pos_nonneg; lia).
  destruct (a * 2 ^ J) as [|n|n] eqn:En; try nia.
  destruct a as [|p|p] eqn:Ea; try lia.
  cbn [binary_normalize].
  rewrite (binary_round_exact false n (Zpos p) J t) by lia.
  replace t with (t - 0) at 2 by lia.
  rewrite (binary_round_exact false p (Zpos p) 0 t); try lia.
  reflexivity.
Qed.

Lemma exact_finite a t :
  0 < a < 2 ^ 53 -> -1022 <= t <= 971 ->
  exact a t = S754_finite false (Z.to_pos (nman a)) (t - nexp a).
Proof.
  intros Ha Ht. unfold exact. destruct a as [|p|p]; try lia. cbn [binary_normalize].
  replace t with (t - 0) at 1 by lia.
  apply binary_round_exact with (a := Zpos p); lia.
Qed.

(** The double [exact a t] has the value [a * 2^t]: its mantissa is [a]
    shifted to the left by some [j] and its exponent is [t - j]. *)
Lemma exact_value a t :
  0 < a < 2 ^ 53 -> -1022 <= t <= 971 ->
  exists m j, exact a t = S754_finite false m (t - j) /\ 0 <= j /\ Zpos m = a * 2 ^ j.
Proof.
  intros Ha Ht. exists (Z.to_pos (nman a)), (nexp a).
  pose proof (nman_normal a Ha). split; [now apply exact_finite|].
  split; [now apply nexp_nonneg|]. rewrite Z2Pos.id by lia. reflexivity.
Qed.

Lemma shl_align_fst m ex ez : ez <= ex ->
  Zpos (fst (shl_align m ex ez)) = Zpos m * 2 ^ (ex - ez).
Proof.
  intros H. unfold shl_align.
  destruct (ez - ex) as [|k|k] eqn:E; try lia.
  - replace (ex - ez) with 0 by lia. simpl fst. lia.
  - simpl fst. rewrite iter_xO_pow. do 2 f_equal. lia.
Qed.

(** Addition and multiplication are exact on such numbers. *)
Lemma add_exact a b t :
  0 <= a -> 0 <= b -> a + b < 2 ^ 53 -> -1022 <= t <= 971 ->
  SFadd PyFloat.prec PyFloat.emax (exact a t) (exact b t) = exact (a + b) t.
Proof.
  intros Ha Hb Hab Ht.
  destruct (Z.eq_dec a 0) as [->|Hza].
  { destruct (Z.eq_dec b 0) as [->|Hzb]; [reflexivity|].
    rewrite Z.add_0_l. rewrite (exact_finite b) by lia. reflexivity. }
  destruct (Z.eq_dec b 0) as [->|Hzb].
  { rewrite Z.add_0_r. rewrite (exact_finite a) by lia. reflexivity. }
  rewrite (exact_finite a), (exact_finite b) by lia.
  pose proof (nman_normal a ltac:(lia)) as Hma.
  pose proof (nman_normal b ltac:(lia)) as Hmb.
  pose proof (nexp_nonneg a ltac:(lia)) as Hea.
  pose proof (nexp_nonneg b ltac:(lia)) as Heb.
  cbn [SFadd cond_Zopp].
  set (ez := Z.min (t - nexp a) (t - nexp b)).
  rewrite !shl_align_fst by (unfold ez; lia).
  rewrite !Z2Pos.id by lia.
  replace (nman a * 2 ^ (t - nexp a - ez) + nman b * 2 ^ (t - nexp b - ez))
    with ((a + b) * 2 ^ (t - ez)).
  - replace ez with (t - (t - ez)) at 2 by lia.
    apply exact_shift; unfold ez; lia.
  - unfold nman. rewrite <- !Z.mul_assoc, <- !Z.pow_add_r by (unfold ez; lia).
    replace (nexp a + (t - nexp a - ez)) with (t - ez) by lia.
    replace (nexp b + (t - nexp b - ez)) with (t - ez) by lia. ring.
Qed.

Lemma mul_exact a b t u :
  0 <= a < 2 ^ 53 -> 0 <= b < 2 ^ 53 -> a * b < 2 ^ 53 ->
  -1022 <= t <= 971 -> -1022 <= u <= 971 -> -1022 <= t + u <= 971 ->
  SFmul PyFloat.prec PyFloat.emax (exact a t) (exact b u) = exact (a * b) (t + u).
Proof.
  intros Ha Hb Hab Ht Hu Htu.
  destruct (Z.eq_dec a 0) as [->|Hza].
  { rewrite Z.mul_0_l. destruct (Z.eq_dec b 0) as [->|Hzb]; [reflexivity|].
    rewrite (exact_finite b) by lia. reflexivity. }
  destruct (Z.eq_dec b 0) as [->|Hzb].
  { rewrite Z.mul_0_r. rewrite (exact_finite a) by lia. reflexivity. }
  assert (Ha' : 0 < a < 2 ^ 53) by lia.
  assert (Hb' : 0 < b < 2 ^ 53) by lia.
  assert (Hab' : 0 < a * b < 2 ^ 53) by nia.
  rewrite (exact_finite a), (exact_finite b), (exact_finite (a * b)) by lia.
  pose proof (nman_normal a Ha') as Hma.
  pose proof (nman_normal b Hb') as Hmb.
  pose proof (nman_normal _ Hab') as Hmab.
  pose proof (nexp_nonneg a Ha') as Hea.
  pose proof (nexp_nonneg b Hb') as Heb.
  pose proof (nexp_nonneg _ Hab') as Heab.
  cbn [SFmul xorb].
  set (k := nexp a + nexp b - nexp (a * b)).
  assert (Hk : 52 <= k).
  { unfold k, nexp.
    pose proof (Z.log2_mul_below a b ltac:(lia) ltac:(lia)). lia. }
  rewrite Pos2Z.inj_mul, !Z2Pos.id by lia.
  replace (nman a * nman b) with (Zpos (Z.to_pos (nman (a * b))) * 2 ^ k).
  - replace (t - nexp a + (u - nexp b)) with (t + u - nexp (a * b) - k) by (unfold k; lia).
    assert (nexp (a * b) <= 52) by (unfold nexp; pose proof (Z.log2_nonneg (a * b)); lia).
    apply binary_round_aux_exact; rewrite ?Z2Pos.id; lia.
  - rewrite Z2Pos.id by lia. unfold nman.
    rewrite <- Z.mul_assoc, <- Z.pow_add_r by lia.
    replace (nexp (a * b) + k) with (nexp a + nexp b) by (unfold k; lia).
    rewrite Z.pow_add_r by lia. ring.
Qed.

(* ---- rounding a 53 or 54 bit quotient ---- *)

(** Division rounds; what is needed of it is a bound on the quotient.  The
    integer quotient of two 53-bit mantissas has 53 or 54 bits, and the
    result keeps the exponent or moves it up by one or two. *)
Lemma loc_of_shr_record_of_loc m l : loc_of_shr_record (shr_record_of_loc m l) = l.
Proof. destruct l as [|[ | | ]]; reflexivity. Qed.

Lemma round_nearest_even_cases m l :
  round_nearest_even m l = m \/ round_nearest_even m l = m + 1.
Proof.
  destruct l as [|[ | | ]]; simpl; auto. destruct (Z.even m); auto.
Qed.

(** The second half of [binary_round_aux]: a normal mantissa, rounded up or
    not, is renormalised. *)
Lemma renormalize s m0 e l :
  2 ^ 52 <= m0 < 2 ^ 53 -> -1074 <= e <= 970 ->
  exists m e2,
    (let '(mrs, e') := shr_fexp PyFloat.prec PyFloat.emax (round_nearest_even m0 l) e loc_Exact in
     match shr_m mrs with
     | Z0 => S754_zero s
     | Zpos m => if e' <=? PyFloat.emax - PyFloat.prec then S754_finite s m e' else S754_infinity s
     | Zneg _ => S754_nan
     end) = S754_finite s m e2
    /\ 2 ^ 52 <= Zpos m < 2 ^ 53
    /\ (e2 = e \/ (e2 = e + 1 /\ Zpos m = 2 ^ 52)).
Proof.
  intros Hm He.
  assert (Hc : round_nearest_even m0 l < 2 ^ 53 \/ round_nearest_even m0 l = 2 ^ 53)
    by (destruct (round_nearest_even_cases m0 l) as [-> | ->]; lia).
  assert (Hlo : 2 ^ 52 <= round_nearest_even m0 l)
    by (destruct (round_nearest_even_cases m0 l) as [-> | ->]; lia).
  destruct Hc as [Hlt | Heq].
  - rewrite shr_fexp_normal by lia. cbn [shr_record_of_loc shr_m].
    destruct (round_nearest_even m0 l) as [|m|m] eqn:Em; try lia.
    exists m, e. unfold PyFloat.emax, PyFloat.prec.
    replace (e <=? 1024 - 53) with true by (symmetry; apply Z.leb_le; lia).
    repeat split; auto; lia.
  - rewrite Heq. exists (4503599627370496%positive), (e + 1).
    unfold shr_fexp. change (Zdigits2 (2 ^ 53)) with 54.
    unfold fexp, emin, PyFloat.prec, PyFloat.emax.
    replace (Z.max (54 + e - 53) (3 - 1024 - 53) - e) with 1 by lia.
    cbn [shr shr_record_of_loc iter_pos]. change (2 ^ 53) with (Zpos (4503599627370496~0)).
    cbn [shr_1 orb shr_m].
    replace (e + 1 <=? 1024 - 53) with true by (symmetry; apply Z.leb_le; lia).
    repeat split; auto; lia.
Qed.

Lemma shr_1_m mrs : 2 <= shr_m mrs -> 2 * shr_m (shr_1 mrs) <= shr_m mrs <= 2 * shr_m (shr_1 mrs) + 1.
Proof.
  destruct mrs as [m r s]. cbn [shr_m]. intros H.
  destruct m as [|[p|p|]|p]; cbn [shr_1 shr_m]; lia.
Qed.

Lemma binary_round_aux_53 s q e l :
  2 ^ 52 <= q < 2 ^ 53 -> -1074 <= e <= 970 ->
  exists m e2, binary_round_aux PyFloat.prec PyFloat.emax s q e l = S754_finite s m e2
    /\ 2 ^ 52 <= Zpos m < 2 ^ 53
    /\ (e2 = e \/ (e2 = e + 1 /\ Zpos m = 2 ^ 52)).
Proof.
  intros Hq He. unfold binary_round_aux.
  rewrite shr_fexp_normal by lia.
  rewrite loc_of_shr_record_of_loc.
  replace (shr_m (shr_record_of_loc q l)) with q by (destruct l as [|[ | | ]]; reflexivity).
  apply renormalize; lia.
Qed.

Lemma binary_round_aux_54 s q e l :
  2 ^ 53 <= q < 2 ^ 54 -> -1074 <= e <= 969 ->
  exists m e2, binary_round_aux PyFloat.prec PyFloat.emax s q e l = S754_finite s m e2
    /\ 2 ^ 52 <= Zpos m < 2 ^ 53
    /\ (e2 = e + 1 \/ (e2 = e + 2 /\ Zpos m = 2 ^ 52)).
Proof.
  intros Hq He. unfold binary_round_aux.
  assert (Hsh : shr_fexp PyFloat.prec PyFloat.emax q e l = (shr_1 (shr_record_of_loc q l), e + 1)).
  { unfold shr_fexp. rewrite Zdigits2_pos_log2 by lia.
    replace (Z.log2 q) with 53 by (symmetry; apply Z.log2_unique; lia).
    unfold fexp, emin, PyFloat.prec, PyFloat.emax.
    replace (Z.max (53 + 1 + e - 53) (3 - 1024 - 53) - e) with 1 by lia.
    reflexivity. }
  rewrite Hsh.
  pose proof (shr_1_m (shr_record_of_loc q l)) as Hm.
  replace (shr_m (shr_record_of_loc q l)) with q in Hm by (destruct l as [|[ | | ]]; reflexivity).
  specialize (Hm ltac:(lia)).
  destruct (renormalize s (shr_m (shr_1 (shr_record_of_loc q l))) (e + 1)
              (loc_of_shr_record (shr_1 (shr_record_of_loc q l))))
    as (m & e2 & Heq & Hn & Hcase); try lia.
  exists m, e2. rewrite Heq. repeat split; try lia.
Qed.

Lemma new_location_0 n : new_location n 0 = loc_Exact.
Proof. unfold new_location, new_location_even, new_location_odd. destruct (Z.even n); reflexivity. Qed.

(** The quotient of [a / 4] by [S] is at most 4.0 when [a <= 16 * S]. *)
Lemma div_le_four a S :
  0 <= a -> 0 < S < 2 ^ 49 -> a <= 16 * S ->
  upto_four (SFdiv PyFloat.prec PyFloat.emax (exact a (-2)) (exact S 0)).
Proof.
  intros Ha HS HaS.
  rewrite (exact_finite S) by lia.
  destruct (Z.eq_dec a 0) as [->|Hz]; [left; reflexivity|].
  right. rewrite (exact_finite a) by lia.
  pose proof (nman_normal a ltac:(lia)) as Hma.
  pose proof (nman_normal S ltac:(lia)) as Hmb.
  pose proof (nexp_nonneg a ltac:(lia)) as Hea.
  pose proof (nexp_nonneg S ltac:(lia)) as Heb.
  assert (Hea' : nexp a <= 52) by (unfold nexp; pose proof (Z.log2_nonneg a); lia).
  assert (Heb' : nexp S <= 52) by (unfold nexp; pose proof (Z.log2_nonneg S); lia).
  set (D := -2 - nexp a - (0 - nexp S)).
  (* the values compare as the integers do *)
  assert (Hval : nman a * 2 ^ nexp S <= 16 * (nman S * 2 ^ nexp a)).
  { unfold nman.
    assert (0 < 2 ^ nexp a) by (apply Z.pow_pos_nonneg; lia).
    assert (0 < 2 ^ nexp S) by (apply Z.pow_pos_nonneg; lia).
    nia. }
  assert (HD : D <= 1 \/ (D = 2 /\ nman a <= nman S)).
  { assert (D <= 1 \/ D = 2 \/ 3 <= D) as [H|[H|H]] by lia; auto.
    - right. split; auto.
      assert (E : nexp S = nexp a + 4) by (unfold D in H; lia).
      rewrite E, Z.pow_add_r in Hval by lia.
      assert (0 < 2 ^ nexp a) by (apply Z.pow_pos_nonneg; lia).
      change (2 ^ 4) with 16 in Hval. nia.
    - exfalso.
      assert (E : nexp a + 5 <= nexp S) by (unfold D in H; lia).
      assert (2 ^ (nexp a + 5) <= 2 ^ nexp S) by (apply Z.pow_le_mono_r; lia).
      rewrite Z.pow_add_r in H0 by lia. change (2 ^ 5) with 32 in H0.
      assert (0 < 2 ^ nexp a) by (apply Z.pow_pos_nonneg; lia).
      nia. }
  cbn [SFdiv xorb]. unfold SFdiv_core_binary.
  rewrite !Zdigits2_pos_log2, !Z2Pos.id by lia.
  rewrite (log2_normal _ Hma), (log2_normal _ Hmb).
  fold D.
  replace (52 + 1 + (-2 - nexp a) - (52 + 1 + (0 - nexp S))) with D by (unfold D; lia).
  replace (Z.min (fexp PyFloat.prec PyFloat.emax D) D) with (D - 53)
    by (unfold fexp, emin, PyFloat.prec, PyFloat.emax, D; lia).
  replace (D - (D - 53)) with 53 by lia.
  rewrite Z.shiftl_mul_pow2 by lia.
  pose proof (Z_div_mod (nman a * 2 ^ 53) (nman S) ltac:(lia)) as Hdiv.
  destruct (Z.div_eucl (nman a * 2 ^ 53) (nman S)) as [q r].
  destruct Hdiv as [Hq Hr].
  assert (Hqlo : 2 ^ 52 <= q) by nia.
  assert (Hqhi : q < 2 ^ 54) by nia.
  assert (q < 2 ^ 53 \/ q = 2 ^ 53 \/ 2 ^ 53 < q) as [Hc|[Hc|Hc]] by lia.
  - destruct (binary_round_aux_53 false q (D - 53) (new_location (nman S) r))
      as (m & e2 & Heq & Hn & Hcase); try (unfold D; lia).
    exists m, e2. rewrite Heq. repeat split; try lia.
  - assert (r = 0) by nia. subst r q.
    rewrite new_location_0.
    exists (4503599627370496%positive), (D - 53 + 1).
    split; [|split; [lia|]].
    + change (2 ^ 53) with (Zpos 4503599627370496 * 2 ^ 1).
      replace (D - 53) with (D - 53 + 1 - 1) at 1 by lia.
      apply binary_round_aux_exact; unfold D; lia.
    + destruct HD as [HD|[HD _]]; lia.
  - destruct HD as [HD|[HD Hle]]; [|nia].
    destruct (binary_round_aux_54 false q (D - 53) (new_location (nman S) r))
      as (m & e2 & Heq & Hn & Hcase); try (unfold D; lia).
    exists m, e2. rewrite Heq. repeat split; try lia.
Qed.

(* ================================================================== *)
(** * Facts about comparison and [round(x, 2)] *)

(** [round(2.675, 2)] is [2.67], since the double nearest to 2.675 lies
    below it; a value that is a tie exactly goes to the even neighbour:
    [round(0.125, 2)] is [0.12] and [round(0.375, 2)] is [0.38]. *)
Example round2_examples :
  PyFloat.round2 (PyFloat.decimal 2675 3) = PyFloat.decimal 267 2 /\
  PyFloat.round2 (PyFloat.decimal 125 3) = PyFloat.decimal 12 2 /\
  PyFloat.round2 (PyFloat.decimal 375 3) = PyFloat.decimal 38 2 /\
  PyFloat.round2 (PyFloat.div (PyFloat.decimal 300 1) (PyFloat.decimal 90 1))
  = PyFloat.decimal 333 2.
Proof. repeat split; vm_compute; reflexivity. Qed.

(** Above 2^53 an addition may round: [2^55 + 4.0] is [2^55]. *)
Example add_rounds_above_2_53 :
  PyFloat.add (exact (2 ^ 55) 0) (PyFloat.decimal 40 1) = exact (2 ^ 55) 0.
Proof. vm_compute. reflexivity. Qed.

Lemma upto_four_in_0_4 f : upto_four f -> in_0_4 f.
Proof.
  intros [-> | (m & e & -> & Hm & He)]; [split; reflexivity|].
  split; [reflexivity|].
  unfold PyFloat.leb, SFleb, four. cbn [SFcompare].
  change (PyFloat.decimal 40 1) with (S754_finite false 4503599627370496 (-50)).
  cbn [SFcompare].
  destruct He as [He | [-> Hm2]].
  - replace (e ?= -50) with Lt by (symmetry; apply Z.compare_lt_iff; lia). reflexivity.
  - assert (m = 4503599627370496%positive) as -> by lia. reflexivity.
Qed.

Lemma div_half_even_bound n d K :
  0 < d -> 0 <= n <= K * d -> 0 <= PyFloat.div_half_even n d <= K.
Proof.
  intros Hd Hn. unfold PyFloat.div_half_even.
  pose proof (Z.div_mod n d ltac:(lia)) as Hdm.
  pose proof (Z.mod_pos_bound n d Hd) as Hr.
  assert (Hq0 : 0 <= n / d) by (apply Z.div_pos; lia).
  assert (Hq : n / d < K \/ (n / d = K /\ n mod d = 0)) by nia.
  destruct (2 * (n mod d) ?= d) eqn:Ec.
  - apply Z.compare_eq_iff in Ec. destruct (Z.even (n / d)); lia.
  - lia.
  - apply Z.compare_gt_iff in Ec. lia.
Qed.

Lemma hundredths_upto_four_ok :
  forallb (fun f => PyFloat.leb zero f && PyFloat.leb f four) hundredths_upto_four = true.
Proof. vm_compute. reflexivity. Qed.

Lemma round2_upto_four f : upto_four f -> in_0_4 (PyFloat.round2 f).
Proof.
  intros [-> | (m & e & -> & Hm & He)]; [split; reflexivity|].
  unfold PyFloat.round2.
  assert (Hh : 0 <= PyFloat.hundredths m e <= 400).
  { destruct e as [|p|p]; try lia. unfold PyFloat.hundredths.
    apply div_half_even_bound; [apply Z.pow_pos_nonneg; lia|].
    split; [lia|].
    destruct He as [He | [He Hm2]].
    - assert (2 ^ 51 <= 2 ^ Zpos p) by (apply Z.pow_le_mono_r; lia). lia.
    - assert (Zpos p = 50) as -> by lia. lia. }
  destruct (PyFloat.hundredths m e) as [|k|k]; try lia.
  - split; reflexivity.
  - pose proof hundredths_upto_four_ok as Hall.
    rewrite forallb_forall in Hall.
    specialize (Hall (PyFloat.nearest_quotient false k 100)).
    apply andb_true_iff. apply Hall.
    unfold hundredths_upto_four. apply in_map_iff.
    exists (Pos.to_nat k). split.
    + rewrite Pos2Nat.id. reflexivity.
    + apply in_seq. lia.
Qed.

(* ================================================================== *)
(** * Facts about strings and the grade table *)

Lemma upper_char_idem c : upper_char (upper_char c) = upper_char c.
Proof. destruct c as [[|] [|] [|] [|] [|] [|] [|] [|]]; reflexivity. Qed.

Lemma upper_lower_char c : upper_char (lower_char c) = upper_char c.
Proof. destruct c as [[|] [|] [|] [|] [|] [|] [|] [|]]; reflexivity. Qed.

Lemma upper_idem s : upper (upper s) = upper s.
Proof. induction s as [|c s IH]; simpl; [reflexivity|]. now rewrite upper_char_idem, IH. Qed.

Lemma upper_lower s : upper (lower s) = upper s.
Proof. induction s as [|c s IH]; simpl; [reflexivity|]. now rewrite upper_lower_char, IH. Qed.

Lemma dict_get_map {V W} (f : V -> W) (d : list (string * V)) k :
  dict_get (map (fun kv => (fst kv, f (snd kv))) d) k = option_map f (dict_get d k).
Proof.
  induction d as [|[k' v] d IH]; simpl; [reflexivity|].
  destruct (String.eqb k' k); [reflexivity|apply IH].
Qed.

Lemma dict_get_In {V} (d : list (string * V)) k v :
  dict_get d k = Some v -> In (k, v) d.
Proof.
  induction d as [|[k' v'] d IH]; simpl; [discriminate|].
  destruct (String.eqb k' k) eqn:E.
  - intros [= ->]. apply String.eqb_eq in E. subst. now left.
  - intros H. right. now apply IH.
Qed.

Lemma dict_get_None {V} (d : list (string * V)) k :
  ~ In k (keys d) -> dict_get d k = None.
Proof.
  induction d as [|[k' v'] d IH]; simpl; [reflexivity|].
  intros H. destruct (String.eqb k' k) eqn:E.
  - apply String.eqb_eq in E. tauto.
  - apply IH. tauto.
Qed.

Lemma grade_map_quarters :
  grade_map = map (fun kq => (fst kq, exact (snd kq) (-2))) grade_quarters.
Proof. vm_compute. reflexivity. Qed.

Lemma grade_weight_exact s : grade_weight s = exact (quarters s) (-2).
Proof.
  unfold grade_weight, quarters, dict_get_default.
  rewrite grade_map_quarters.
  pose proof (dict_get_map (fun q => exact q (-2)) grade_quarters (upper s)) as H.
  cbn beta in H. rewrite H.
  destruct (dict_get grade_quarters (upper s)); reflexivity.
Qed.

Lemma quarters_range s : 0 <= quarters s <= 16.
Proof.
  unfold quarters, dict_get_default.
  destruct (dict_get grade_quarters (upper s)) as [q|] eqn:E; [|lia].
  apply dict_get_In in E. simpl in E.
  repeat (destruct E as [E|E]; [inversion E; lia|]). contradiction.
Qed.

Lemma convert_grade_to_weight_Some s :
  convert_grade_to_weight (Some s) = Ok (grade_weight s).
Proof. reflexivity. Qed.

(* ================================================================== *)
(** * A nonzero integer converts to a nonzero float *)

Lemma shr_1_half mrs : 0 <= shr_m mrs -> shr_m (shr_1 mrs) = shr_m mrs / 2.
Proof.
  destruct mrs as [m r s]. cbn [shr_m]. intros H.
  destruct m as [|[p|p|]|p]; cbn [shr_1 shr_m]; try lia;
    try reflexivity;
    first [ apply Z.div_unique with (r := 1); lia
          | apply Z.div_unique with (r := 0); lia ].
Qed.

Lemma iter_shr_m p : forall mrs, 0 <= shr_m mrs ->
  shr_m (iter_pos shr_1 p mrs) = shr_m mrs / 2 ^ Zpos p.
Proof.
  induction p as [p IH|p IH|]; intros mrs Hm; cbn [iter_pos].
  - assert (H1 : 0 <= shr_m (shr_1 mrs)) by (rewrite shr_1_half by lia; apply Z.div_pos; lia).
    assert (0 < 2 ^ Zpos p) by (apply Z.pow_pos_nonneg; lia).
    rewrite IH; rewrite IH; try lia.
    + rewrite shr_1_half by lia. rewrite !Z.div_div by lia.
      f_equal. rewrite pow2_xI. ring.
    + apply Z.div_pos; lia.
  - assert (0 < 2 ^ Zpos p) by (apply Z.pow_pos_nonneg; lia).
    rewrite IH; rewrite IH; try lia.
    + rewrite Z.div_div by lia. f_equal. now rewrite pow2_xO.
    + apply Z.div_pos; lia.
  - rewrite shr_1_half by lia. reflexivity.
Qed.

Lemma shr_fexp_positive m e l :
  0 < m -> -1074 <= e ->
  0 < shr_m (fst (shr_fexp PyFloat.prec PyFloat.emax m e l))
  /\ -1074 <= snd (shr_fexp PyFloat.prec PyFloat.emax m e l).
Proof.
  intros Hm He. unfold shr_fexp.
  rewrite Zdigits2_pos_log2 by lia.
  assert (Hrec : shr_m (shr_record_of_loc m l) = m) by (destruct l as [|[ | | ]]; reflexivity).
  destruct (fexp PyFloat.prec PyFloat.emax (Z.log2 m + 1 + e) - e) as [|k|k] eqn:Ek;
    cbn [shr fst snd]; rewrite ?Hrec; try lia.
  unfold fexp, emin, PyFloat.prec, PyFloat.emax in Ek.
  assert (Hk : Zpos k = Z.log2 m - 52) by lia.
  rewrite iter_shr_m, Hrec by lia. split; [|lia].
  destruct (Z.log2_spec m Hm) as [Hlo _].
  assert (0 < 2 ^ Zpos k) by (apply Z.pow_pos_nonneg; lia).
  assert (E : 2 ^ Z.log2 m = 2 ^ Zpos k * 2 ^ 52).
  { rewrite <- Z.pow_add_r by lia. f_equal. lia. }
  assert (2 ^ 52 <= m / 2 ^ Zpos k) by (apply Z.div_le_lower_bound; lia).
  lia.
Qed.

Lemma binary_round_aux_nonzero s m e l :
  0 < m -> -1074 <= e ->
  PyFloat.is_zero (binary_round_aux PyFloat.prec PyFloat.emax s m e l) = false.
Proof.
  intros Hm He. unfold binary_round_aux.
  pose proof (shr_fexp_positive m e l Hm He) as [H1 H2].
  destruct (shr_fexp PyFloat.prec PyFloat.emax m e l) as [mrs e'].
  cbn [fst snd] in H1, H2.
  set (m1 := round_nearest_even (shr_m mrs) (loc_of_shr_record mrs)).
  assert (Hm1 : 0 < m1)
    by (unfold m1; destruct (round_nearest_even_cases (shr_m mrs) (loc_of_shr_record mrs)) as [-> | ->]; lia).
  pose proof (shr_fexp_positive m1 e' loc_Exact Hm1 H2) as [H3 _].
  destruct (shr_fexp PyFloat.prec PyFloat.emax m1 e' loc_Exact) as [mrs2 e2].
  cbn [fst] in H3.
  destruct (shr_m mrs2); try lia.
  destruct (e2 <=? PyFloat.emax - PyFloat.prec); reflexivity.
Qed.

Lemma of_int_ieee_nonzero n :
  n <> 0 -> PyFloat.is_zero (PyFloat.of_int_ieee n) = false.
Proof.
  intros Hn. unfold PyFloat.of_int_ieee.
  assert (Hround : forall s p, PyFloat.is_zero (binary_round PyFloat.prec PyFloat.emax s p 0) = false).
  { intros s p. unfold binary_round, shl_align.
    set (E := fexp PyFloat.prec PyFloat.emax (Zpos (digits2_pos p) + 0)).
    assert (-1074 <= E) by (unfold E, fexp, emin, PyFloat.prec, PyFloat.emax; lia).
    destruct (E - 0) as [|k|k] eqn:Ek; apply binary_round_aux_nonzero; lia. }
  destruct n as [|p|p]; [congruence| |]; apply Hround.
Qed.

(* ================================================================== *)
(** * Integers that convert without overflow *)

Lemma binary_round_int_finite s p :
  Zpos p < 2 ^ 1023 ->
  exists m e, binary_round PyFloat.prec PyFloat.emax s p 0 = S754_finite s m e.
Proof.
  intros Hp.
  assert (Zpos p < 2 ^ 53 \/ 2 ^ 53 <= Zpos p) as [Hs|Hl] by lia.
  - eexists. eexists. change 0 with (0 - 0) at 1.
    apply (binary_round_exact s p (Zpos p) 0 0); lia.
  - assert (Hlog : 53 <= Z.log2 (Zpos p) < 1023).
    { split; [apply Z.log2_le_pow2; lia|apply Z.log2_lt_pow2; lia]. }
    destruct (Z.log2_spec (Zpos p) ltac:(lia)) as [Hlo Hhi].
    set (k := Z.log2 (Zpos p) - 52) in *.
    assert (Hk : 0 < k <= 970) by (unfold k; lia).
    assert (0 < 2 ^ k) by (apply Z.pow_pos_nonneg; lia).
    assert (E1 : 2 ^ Z.log2 (Zpos p) = 2 ^ k * 2 ^ 52)
      by (rewrite <- Z.pow_add_r by lia; f_equal; unfold k; lia).
    assert (E2 : 2 ^ Z.succ (Z.log2 (Zpos p)) = 2 ^ k * 2 ^ 53)
      by (rewrite <- Z.pow_add_r by lia; f_equal; unfold k; lia).
    unfold binary_round. rewrite Zdigits2_log2.
    replace (fexp PyFloat.prec PyFloat.emax (Z.log2 (Zpos p) + 1 + 0)) with k
      by (unfold fexp, emin, PyFloat.prec, PyFloat.emax, k; lia).
    unfold shl_align. rewrite Z.sub_0_r.
    destruct k as [|kp|kp] eqn:Ek; try lia.
    unfold binary_round_aux.
    assert (Hsh : shr_fexp PyFloat.prec PyFloat.emax (Zpos p) 0 loc_Exact
                  = (iter_pos shr_1 kp {| shr_m := Zpos p; shr_r := false; shr_s := false |}, Zpos kp)).
    { unfold shr_fexp. rewrite Zdigits2_pos_log2 by lia.
      replace (fexp PyFloat.prec PyFloat.emax (Z.log2 (Zpos p) + 1 + 0) - 0) with (Zpos kp)
        by (unfold fexp, emin, PyFloat.prec, PyFloat.emax; lia).
      reflexivity. }
    rewrite Hsh.
    set (mrs := iter_pos shr_1 kp {| shr_m := Zpos p; shr_r := false; shr_s := false |}).
    assert (Hm : 2 ^ 52 <= shr_m mrs < 2 ^ 53).
    { unfold mrs. rewrite iter_shr_m by (cbn; lia). cbn [shr_m]. split.
      - apply Z.div_le_lower_bound; lia.
      - apply Z.div_lt_upper_bound; lia. }
    destruct (renormalize s (shr_m mrs) (Zpos kp) (loc_of_shr_record mrs))
      as (m & e2 & Heq & _); try lia.
    exists m, e2. exact Heq.
Qed.

(** Every integer below 2^1023 in absolute value converts. *)
Lemma fits_float_bound n : Z.abs n < 2 ^ 1023 -> fits_float n.
Proof.
  intros H. unfold fits_float, PyFloat.of_int, PyFloat.of_int_ieee.
  destruct n as [|p|p]; cbn [binary_normalize].
  - discriminate.
  - destruct (binary_round_int_finite false p) as (m & e & ->); [lia|discriminate].
  - destruct (binary_round_int_finite true p) as (m & e & ->); [lia|discriminate].
Qed.

(* ================================================================== *)
(** * The accumulation loop *)

Lemma fits_float_of_int n :
  fits_float n -> PyFloat.of_int n = Some (PyFloat.of_int_ieee n).
Proof.
  unfold fits_float, PyFloat.of_int. destruct (PyFloat.of_int_ieee n); congruence.
Qed.

Lemma float_mul_int_fits x n :
  fits_float n -> float_mul_int x n = Ok (PyFloat.mul x (PyFloat.of_int_ieee n)).
Proof. intros H. unfold float_mul_int. now rewrite (fits_float_of_int n H). Qed.

Lemma float_div_int_fits x n :
  fits_float n -> n <> 0 ->
  float_div_int x n = Ok (PyFloat.div x (PyFloat.of_int_ieee n)).
Proof.
  intros H Hn. unfold float_div_int.
  now rewrite (fits_float_of_int n H), (of_int_ieee_nonzero n Hn).
Qed.

Lemma ips_of_fits tb ts :
  fits_float ts ->
  ips_of tb ts = Ok (if ts =? 0 then zero else PyFloat.div tb (PyFloat.of_int_ieee ts)).
Proof.
  intros H. unfold ips_of. destruct (Z.eqb_spec ts 0) as [E|E]; [reflexivity|].
  now apply float_div_int_fits.
Qed.

Lemma accumulate_row_graded tb ts row :
  has_grade row -> fits_float (sks row) ->
  accumulate_row (tb, ts) row = Ok (PyFloat.add tb (contribution row), ts + sks row).
Proof.
  unfold has_grade, accumulate_row, contribution, row_weight. intros Hg Hf.
  destruct (nilai row) as [s|]; [|congruence].
  rewrite convert_grade_to_weight_Some. cbn [bind].
  rewrite float_mul_int_fits by assumption. reflexivity.
Qed.

Lemma accumulate_graded rows : forall tb ts,
  Forall has_grade rows -> Forall (fun row => fits_float (sks row)) rows ->
  accumulate rows (tb, ts)
  = Ok (fold_left PyFloat.add (map contribution rows) tb, ts + total_credits rows).
Proof.
  induction rows as [|row rows IH]; intros tb ts Hg Hf.
  - cbn. now rewrite Z.add_0_r.
  - inversion Hg; inversion Hf; subst.
    cbn [accumulate]. rewrite accumulate_row_graded by assumption. cbn [bind].
    rewrite IH by assumption. cbn [map fold_left]. unfold total_credits. cbn [map fold_right].
    do 2 f_equal. lia.
Qed.

Lemma accumulate_app rows1 : forall rows2 acc,
  accumulate (rows1 ++ rows2) acc = (acc' <- accumulate rows1 acc ;; accumulate rows2 acc').
Proof.
  induction rows1 as [|row rows1 IH]; intros rows2 acc; [reflexivity|].
  cbn [app accumulate]. destruct (accumulate_row acc row); cbn [bind]; [apply IH|reflexivity].
Qed.

Lemma total_credits_nonneg rows :
  Forall (fun row => 0 <= sks row) rows -> 0 <= total_credits rows.
Proof.
  unfold total_credits. induction 1; cbn [map fold_right]; lia.
Qed.

Lemma total_credits_perm rows rows' :
  Permutation rows rows' -> total_credits rows = total_credits rows'.
Proof.
  unfold total_credits. induction 1; cbn [map fold_right]; lia.
Qed.

Lemma quarter_sum_perm rows rows' :
  Permutation rows rows' -> quarter_sum rows = quarter_sum rows'.
Proof.
  unfold quarter_sum. induction 1; cbn [map fold_right]; lia.
Qed.

Lemma row_quarters_range row : 0 <= row_quarters row <= 16.
Proof.
  unfold row_quarters. destruct (nilai row); [apply quarters_range|lia].
Qed.

Lemma quarter_sum_range rows :
  Forall (fun row => 0 <= sks row) rows ->
  0 <= quarter_sum rows <= 16 * total_credits rows.
Proof.
  unfold quarter_sum, total_credits.
  induction 1 as [|row rows Hs _ IH]; cbn [map fold_right]; [lia|].
  pose proof (row_quarters_range row). nia.
Qed.

Lemma of_int_ieee_exact n : PyFloat.of_int_ieee n = exact n 0.
Proof. reflexivity. Qed.

Lemma fits_float_small n : 0 <= n < 2 ^ 53 -> fits_float n.
Proof. intros H. apply fits_float_bound. lia. Qed.

Lemma contribution_exact row :
  0 <= sks row < 2 ^ 49 ->
  contribution row = exact (row_quarters row * sks row) (-2).
Proof.
  intros Hs. unfold contribution.
  assert (Hw : row_weight row = exact (row_quarters row) (-2)).
  { unfold row_weight, row_quarters. destruct (nilai row); [apply grade_weight_exact|reflexivity]. }
  pose proof (row_quarters_range row) as Hq.
  rewrite Hw, of_int_ieee_exact.
  change (-2) with (-2 + 0) at 2.
  apply mul_exact; try lia; nia.
Qed.

Lemma float_sum_exact rows : forall A,
  0 <= A -> Forall (fun row => 0 <= sks row) rows ->
  A + 16 * total_credits rows < 2 ^ 53 ->
  fold_left PyFloat.add (map contribution rows) (exact A (-2))
  = exact (A + quarter_sum rows) (-2).
Proof.
  induction rows as [|row rows IH]; intros A HA Hs Hb.
  - cbn. now rewrite Z.add_0_r.
  - inversion Hs as [|? ? Hrow Hrows]; subst.
    pose proof (total_credits_nonneg rows Hrows) as Ht.
    pose proof (row_quarters_range row) as Hq.
    unfold total_credits in Hb, Ht. cbn [map fold_right] in Hb.
    fold (total_credits rows) in Hb, Ht.
    cbn [map fold_left]. rewrite contribution_exact by lia.
    unfold PyFloat.add. rewrite add_exact by nia.
    rewrite IH; try assumption; try nia.
    f_equal. unfold quarter_sum. cbn [map fold_right]. lia.
Qed.

(* ================================================================== *)
(** * The grade table *)

(** C4. The lookup does not depend on the case of its argument and follows
    the table: A is 4.0, B+ is 3.5, B is 3.0, B- is 2.75, C+ is 2.5, C is
    2.0, D is 1.0 and E is 0.0; a string whose upper-case form is not a key
    of the table gives 0.0, and no exception is raised. *)
Theorem grade_weight_table (s : string) :
  (upper s = "A" -> convert_grade_to_weight (Some s) = Ok (PyFloat.decimal 40 1)) /\
  (upper s = "B+" -> convert_grade_to_weight (Some s) = Ok (PyFloat.decimal 35 1)) /\
  (upper s = "B" -> convert_grade_to_weight (Some s) = Ok (PyFloat.decimal 30 1)) /\
  (upper s = "B-" -> convert_grade_to_weight (Some s) = Ok (PyFloat.decimal 275 2)) /\
  (upper s = "C+" -> convert_grade_to_weight (Some s) = Ok (PyFloat.decimal 25 1)) /\
  (upper s = "C" -> convert_grade_to_weight (Some s) = Ok (PyFloat.decimal 20 1)) /\
  (upper s = "D" -> convert_grade_to_weight (Some s) = Ok (PyFloat.decimal 10 1)) /\
  (upper s = "E" -> convert_grade_to_weight (Some s) = Ok (PyFloat.decimal 0 1)) /\
  (~ In (upper s) ["A"; "B+"; "B"; "B-"; "C+"; "C"; "D"; "E"] ->
   convert_grade_to_weight (Some s) = Ok (PyFloat.decimal 0 1)) /\
  convert_grade_to_weight (Some (lower s)) = convert_grade_to_weight (Some s) /\
  convert_grade_to_weight (Some (upper s)) = convert_grade_to_weight (Some s).
Proof.
  unfold convert_grade_to_weight.
  repeat match goal with
         | |- (upper s = _ -> _) /\ _ => split; [intros ->; reflexivity|]
         end.
  split; [|split].
  - intros Hnot. unfold dict_get_default.
    rewrite dict_get_None; [reflexivity|exact Hnot].
  - now rewrite upper_lower.
  - now rewrite upper_idem.
Qed.

Lemma grade_weight_table_witness :
  convert_grade_to_weight (Some "b+") = Ok (PyFloat.decimal 35 1) /\
  convert_grade_to_weight (Some "a") = convert_grade_to_weight (Some "A") /\
  convert_grade_to_weight (Some "X") = Ok (PyFloat.decimal 0 1).
Proof.
  split; [|split].
  - destruct (grade_weight_table "b+") as (_ & H & _). apply H. reflexivity.
  - destruct (grade_weight_table "A") as (_ & _ & _ & _ & _ & _ & _ & _ & _ & H & _).
    exact H.
  - destruct (grade_weight_table "X") as (_ & _ & _ & _ & _ & _ & _ & _ & H & _).
    apply H. vm_compute. intuition discriminate.
Defined.

Lemma grade_weight_values (s : string) :
  In (grade_weight s)
     [PyFloat.decimal 40 1; PyFloat.decimal 35 1; PyFloat.decimal 30 1;
      PyFloat.decimal 275 2; PyFloat.decimal 25 1; PyFloat.decimal 20 1;
      PyFloat.decimal 10 1; PyFloat.decimal 0 1].
Proof.
  unfold grade_weight, dict_get_default.
  destruct (dict_get grade_map (upper s)) as [w|] eqn:E.
  - apply dict_get_In in E. unfold grade_map in E. cbn [In] in E.
    repeat (destruct E as [E|E]; [inversion E; subst; cbn [In]; tauto|]).
    contradiction.
  - cbn [In]. unfold zero. tauto.
Qed.

(** C10. On every string, of any case and the empty one included, the
    lookup returns a value, and the value is one of the eight weights of
    the table. *)
Theorem grade_weight_total (s : string) :
  exists w, convert_grade_to_weight (Some s) = Ok w /\
    In w [PyFloat.decimal 40 1; PyFloat.decimal 35 1; PyFloat.decimal 30 1;
          PyFloat.decimal 275 2; PyFloat.decimal 25 1; PyFloat.decimal 20 1;
          PyFloat.decimal 10 1; PyFloat.decimal 0 1].
Proof.
  exists (grade_weight s). split; [reflexivity|apply grade_weight_values].
Qed.

(* ================================================================== *)
(** * Characters and bytes *)

(** A text has at most as many characters as bytes, *)
Lemma len_le_length s : (len s <= String.length s)%nat.
Proof.
  induction s as [|c s IH]; [apply Nat.le_refl|].
  cbn [len String.length]. destruct (is_continuation c); lia.
Qed.

(** and exactly as many when it is ASCII. *)
Lemma len_ascii s :
  Forall (fun c => (nat_of_ascii c < 128)%nat) (list_ascii_of_string s) ->
  len s = String.length s.
Proof.
  induction s as [|c s IH]; intros H; [reflexivity|].
  cbn [list_ascii_of_string] in H. inversion H as [|c' l Hc Hs]; subst.
  cbn [len String.length]. rewrite (IH Hs).
  unfold is_continuation.
  replace (128 <=? nat_of_ascii c)%nat with false
    by (symmetry; apply Nat.leb_gt; exact Hc).
  reflexivity.
Qed.

(** Four two-byte letters are four characters in eight bytes, three
    three-byte ideographs three characters in nine. *)
Lemma len_examples :
  len "12345" = 5%nat /\
  len "éééé" = 4%nat /\ String.length "éééé" = 8%nat /\
  len "日本語" = 3%nat /\ String.length "日本語" = 9%nat.
Proof. repeat split. Qed.

(* ================================================================== *)
(** * The endpoints and the store *)

Lemma route_ips_fetched st n rows :
  (5 <= len n)%nat ->
  connect_error st = None -> select_krs st n = inr rows ->
  route_ips st (Some n) =
  match calculate_ips_rows n rows with
  | Ok v =>
      match commit_error st with
      | None => (Returned v, [EvConnect; EvExecute (SelectKrs n); EvCommit; EvClose])
      | Some e => (ReplyError 500 ("Terjadi kesalahan server: " ++ exc_msg e),
                   [EvConnect; EvExecute (SelectKrs n); EvCommit; EvRollback; EvClose])
      end
  | Raise e => (reply_of (ips_handlers (@Raise value e)),
                [EvConnect; EvExecute (SelectKrs n); EvRollback; EvClose])
  end.
Proof.
  intros Hlen Hc Hq. unfold route_ips.
  replace (len n <? 5)%nat with false by (symmetry; apply Nat.ltb_ge; exact Hlen).
  unfold calculate_ips, get_db_connection, fetchall. rewrite Hc, Hq. cbn [bind].
  destruct (calculate_ips_rows n rows) as [v|e].
  - destruct (commit_error st); reflexivity.
  - reflexivity.
Qed.

(** C7. An identifier of fewer than 5 characters, whatever the number of
    bytes of its encoding, is answered with the client error 422, and no
    call to the store is made: the list of driver calls is empty. *)
Theorem short_nim_rejected (st : Store) (n : string) :
  (len n < 5)%nat ->
  route_ips st (Some n) = (ReplyInvalid, []) /\
  error_status (fst (route_ips st (Some n))) = Some 422 /\
  snd (route_ips st (Some n)) = [].
Proof.
  intros H. unfold route_ips.
  replace (len n <? 5)%nat with true by (symmetry; apply Nat.ltb_lt; exact H).
  repeat split.
Qed.

(** C3. A well-formed identifier whose query returns no row is answered
    with 404, not with a returned GPA and not with 500: the body raises an
    [HTTPException] of status 404, and an [HTTPException] passes the
    handlers unchanged. *)
Theorem no_rows_not_found (st : Store) (n : string) :
  (5 <= len n)%nat ->
  connect_error st = None ->
  select_krs st n = inr [] ->
  route_ips st (Some n)
  = (ReplyError 404 ("Data KRS tidak ditemukan untuk NIM " ++ n),
     [EvConnect; EvExecute (SelectKrs n); EvRollback; EvClose]) /\
  calculate_ips_rows n [] = Raise (HTTPException 404 ("Data KRS tidak ditemukan untuk NIM " ++ n)) /\
  (forall c d, ips_handlers (@Raise value (HTTPException c d)) = Raise (HTTPException c d)) /\
  error_status (fst (route_ips st (Some n))) = Some 404.
Proof.
  intros Hlen Hc Hq.
  rewrite (route_ips_fetched st n [] Hlen Hc Hq). cbn.
  repeat split.
Qed.

(** C8. The listing answers with one record per row of the student table,
    in the order of the store, each with the four fields nim, nama,
    jurusan and angkatan; with the empty list when the table is empty; and
    with status 500, and nothing of the rows, when the store raises. *)
Theorem listing_returns_all (st : Store) :
  fst (route_mahasiswa st)
  = match store_listing st with
    | inr rows => Returned (VList (map mahasiswa_dict rows))
    | inl e => ReplyError 500 (exc_msg e)
    end /\
  (store_listing st = inr [] -> fst (route_mahasiswa st) = Returned (VList [])) /\
  (forall row, exists d,
      mahasiswa_dict row = VDict d /\
      keys d = ["nim"; "nama"; "jurusan"; "angkatan"] /\
      dict_get d "nim" = Some (VStr (col_nim row)) /\
      dict_get d "nama" = Some (VStr (col_nama row)) /\
      dict_get d "jurusan" = Some (VStr (col_jurusan row)) /\
      dict_get d "angkatan" = Some (VInt (col_angkatan row))).
Proof.
  assert (H : fst (route_mahasiswa st)
              = match store_listing st with
                | inr rows => Returned (VList (map mahasiswa_dict rows))
                | inl e => ReplyError 500 (exc_msg e)
                end).
  { unfold route_mahasiswa, get_mahasiswas, get_db_connection, fetchall, store_listing.
    destruct (connect_error st); [reflexivity|].
    destruct (select_mahasiswa st); [reflexivity|].
    cbn [bind]. destruct (commit_error st); reflexivity. }
  split; [exact H|split].
  - intros E. rewrite H, E. reflexivity.
  - intros row. eexists. split; [reflexivity|]. cbn. tauto.
Qed.

Lemma short_nim_rejected_witness :
  route_ips (store_with scenario_rows) (Some "123") = (ReplyInvalid, []) /\
  route_ips (store_with scenario_rows) (Some "éééé") = (ReplyInvalid, []).
Proof.
  split.
  - apply (short_nim_rejected (store_with scenario_rows) "123"). vm_compute. lia.
  - apply (short_nim_rejected (store_with scenario_rows) "éééé"). vm_compute. lia.
Defined.

Lemma no_rows_not_found_witness :
  route_ips (store_with scenario_rows) (Some "99999")
  = (ReplyError 404 "Data KRS tidak ditemukan untuk NIM 99999",
     [EvConnect; EvExecute (SelectKrs "99999"); EvRollback; EvClose]).
Proof.
  apply (no_rows_not_found (store_with scenario_rows) "99999").
  - vm_compute. lia.
  - reflexivity.
  - reflexivity.
Defined.

Lemma listing_returns_all_witness :
  fst (route_mahasiswa (store_with []))
  = Returned (VList [mahasiswa_dict (MahasiswaRow "12345" "Budi" "Informatika" 2023);
                     mahasiswa_dict (MahasiswaRow "67890" "Sari" "Akuntansi" 2022)]) /\
  fst (route_mahasiswa store_empty) = Returned (VList []) /\
  fst (route_mahasiswa store_down) = ReplyError 500 "connection refused".
Proof.
  split; [|split].
  - exact (proj1 (listing_returns_all (store_with []))).
  - apply (proj1 (proj2 (listing_returns_all store_empty))). reflexivity.
  - exact (proj1 (listing_returns_all store_down)).
Defined.

(* ================================================================== *)
(** * The GPA *)

Lemma weighted_sum_exact rows :
  Forall (fun row => 0 <= sks row) rows -> total_credits rows < 2 ^ 49 ->
  weighted_sum rows = exact (quarter_sum rows) (-2).
Proof.
  intros Hs Ht. unfold weighted_sum, float_sum.
  change zero with (exact 0 (-2)).
  rewrite float_sum_exact; try assumption; try lia.
  reflexivity.
Qed.

Lemma calculate_ips_rows_graded n rows :
  rows <> [] -> Forall has_grade rows ->
  Forall (fun row => fits_float (sks row)) rows -> fits_float (total_credits rows) ->
  exists info,
    calculate_ips_rows n rows
    = Ok (VDict [("mahasiswa", info);
                 ("total_sks_diambil", VInt (total_credits rows));
                 ("total_bobot_sks", VFloat (PyFloat.round2 (weighted_sum rows)));
                 ("ips", VFloat (PyFloat.round2 (gpa rows)))]).
Proof.
  intros Hne Hg Hf Ht. destruct rows as [|first rows']; [congruence|].
  unfold calculate_ips_rows.
  change (PyFloat.decimal 0 1) with zero.
  rewrite accumulate_graded by assumption. cbn [bind].
  rewrite Z.add_0_l, ips_of_fits by assumption. cbn [bind].
  eexists. reflexivity.
Qed.

(** C1, as the code has it. For a non-empty list of rows, each with a
    letter grade (none of them NULL) and with credit hours that convert to
    a float, the endpoint returns the total of the credit hours, the sum
    of weight times credit hours, and the quotient of the two as GPA, 0.0
    when the total of the credit hours is zero; the sum and the GPA are
    given to two decimals.  The sum is the float sum, taken in the order of
    the rows; for non-negative credit hours with a total below 2^49 it
    holds the sum of the products exactly. *)
Theorem ips_is_weighted_average (st : Store) (n : string) (rows : list krs_row) :
  (5 <= len n)%nat ->
  connect_error st = None ->
  select_krs st n = inr rows ->
  commit_error st = None ->
  rows <> [] ->
  Forall has_grade rows ->
  Forall (fun row => fits_float (sks row)) rows ->
  fits_float (total_credits rows) ->
  exists body,
    fst (route_ips st (Some n)) = Returned (VDict body) /\
    dict_get body "total_sks_diambil" = Some (VInt (total_credits rows)) /\
    dict_get body "total_bobot_sks" = Some (VFloat (PyFloat.round2 (weighted_sum rows))) /\
    dict_get body "ips"
    = Some (VFloat (PyFloat.round2
                      (if total_credits rows =? 0 then PyFloat.decimal 0 1
                       else PyFloat.div (weighted_sum rows)
                                        (PyFloat.of_int_ieee (total_credits rows))))) /\
    (Forall (fun row => 0 <= sks row) rows -> total_credits rows < 2 ^ 49 ->
     weighted_sum rows = exact (quarter_sum rows) (-2)).
Proof.
  intros Hlen Hc Hq Hcm Hne Hg Hf Ht.
  rewrite (route_ips_fetched st n rows Hlen Hc Hq).
  destruct (calculate_ips_rows_graded n rows Hne Hg Hf Ht) as [info ->].
  rewrite Hcm. eexists. split; [reflexivity|]. cbn.
  repeat split. apply weighted_sum_exact.
Qed.

Lemma ips_is_weighted_average_witness :
  exists body,
    fst (route_ips (store_with scenario_rows) (Some "12345")) = Returned (VDict body) /\
    dict_get body "total_sks_diambil" = Some (VInt 9) /\
    dict_get body "total_bobot_sks" = Some (VFloat (PyFloat.decimal 300 1)) /\
    dict_get body "ips" = Some (VFloat (PyFloat.decimal 333 2)).
Proof.
  destruct (ips_is_weighted_average (store_with scenario_rows) "12345" scenario_rows)
    as (body & H1 & H2 & H3 & H4 & _).
  - vm_compute. lia.
  - reflexivity.
  - reflexivity.
  - reflexivity.
  - discriminate.
  - repeat constructor; discriminate.
  - repeat constructor; vm_compute; discriminate.
  - vm_compute; discriminate.
  - exists body. split; [exact H1|]. split; [exact H2|]. split.
    + rewrite H3. vm_compute. reflexivity.
    + rewrite H4. vm_compute. reflexivity.
Defined.

(** C1, as stated, fails on a non-empty list in which a row has no grade.
    For the rows (A, 3) and (NULL, 3) the weights 4.0 and 0.0 give the sum
    12.0 over 6 credit hours, a GPA of 2.0; the endpoint returns no GPA at
    all: the lookup raises on the second row and the answer is 500. *)
Lemma null_grade_row_has_no_gpa :
  let rows := [enrollment (Some "A") 3; enrollment None 3] in
  rows <> [] /\
  total_credits rows = 6 /\
  weighted_sum rows = PyFloat.decimal 120 1 /\
  gpa rows = PyFloat.decimal 20 1 /\
  route_ips (store_with rows) (Some "12345")
  = (ReplyError 500 "Terjadi kesalahan server: 'NoneType' object has no attribute 'upper'",
     [EvConnect; EvExecute (SelectKrs "12345"); EvRollback; EvClose]) /\
  (forall body, fst (route_ips (store_with rows) (Some "12345")) <> Returned body).
Proof.
  cbv zeta. split; [discriminate|]. split; [reflexivity|].
  split; [vm_compute; reflexivity|]. split; [vm_compute; reflexivity|].
  split; [reflexivity|]. intros body. vm_compute. discriminate.
Qed.

(** C2, as the code has it. A row whose grade is a string that is not in
    the table, whatever its case, is weighted 0.0, and the computation over
    rows whose grades are all strings returns a response. *)
Theorem unknown_grade_weighs_zero (n : string) (rows : list krs_row) (row : krs_row) (s : string) :
  In row rows ->
  nilai row = Some s ->
  ~ In (upper s) (keys grade_map) ->
  Forall has_grade rows ->
  Forall (fun row => fits_float (sks row)) rows ->
  fits_float (total_credits rows) ->
  convert_grade_to_weight (nilai row) = Ok (PyFloat.decimal 0 1) /\
  (forall tb ts,
      accumulate_row (tb, ts) row
      = Ok (PyFloat.add tb (PyFloat.mul (PyFloat.decimal 0 1) (PyFloat.of_int_ieee (sks row))),
            ts + sks row)) /\
  exists body, calculate_ips_rows n rows = Ok (VDict body).
Proof.
  intros Hin Hs Hnot Hg Hf Ht.
  assert (Hw : grade_weight s = PyFloat.decimal 0 1).
  { unfold grade_weight, dict_get_default. now rewrite dict_get_None. }
  assert (Hrow : has_grade row /\ fits_float (sks row)).
  { rewrite Forall_forall in Hg, Hf. split; [apply Hg|apply Hf]; exact Hin. }
  split; [|split].
  - rewrite Hs, convert_grade_to_weight_Some, Hw. reflexivity.
  - intros tb ts. rewrite accumulate_row_graded by tauto.
    unfold contribution, row_weight. rewrite Hs, Hw. reflexivity.
  - destruct rows as [|first rows']; [contradiction|].
    destruct (calculate_ips_rows_graded n (first :: rows')) as [info ->];
      try assumption; [discriminate|]. eexists. reflexivity.
Qed.

Lemma unknown_grade_weighs_zero_witness :
  convert_grade_to_weight (Some "X") = Ok (PyFloat.decimal 0 1) /\
  (exists body, calculate_ips_rows "12345" [enrollment (Some "X") 3] = Ok (VDict body)) /\
  totals_and_gpa "12345" [enrollment (Some "X") 3]
  = Ok [Some (VInt 3); Some (VFloat (PyFloat.decimal 0 1)); Some (VFloat (PyFloat.decimal 0 1))].
Proof.
  destruct (unknown_grade_weighs_zero "12345" [enrollment (Some "X") 3]
              (enrollment (Some "X") 3) "X") as (H1 & _ & H3).
  - left. reflexivity.
  - reflexivity.
  - vm_compute. intuition discriminate.
  - repeat constructor; discriminate.
  - repeat constructor; vm_compute; discriminate.
  - vm_compute; discriminate.
  - split; [exact H1|]. split; [exact H3|]. vm_compute. reflexivity.
Defined.

(** C2, as stated, fails on a row without a grade: the lookup raises on
    it, and the endpoint answers 500. *)
Lemma null_grade_is_server_error :
  convert_grade_to_weight None
  = Raise (Other (PyError "AttributeError" "'NoneType' object has no attribute 'upper'")) /\
  route_ips (store_with [enrollment None 3]) (Some "12345")
  = (ReplyError 500 "Terjadi kesalahan server: 'NoneType' object has no attribute 'upper'",
     [EvConnect; EvExecute (SelectKrs "12345"); EvRollback; EvClose]).
Proof. split; reflexivity. Qed.

Lemma weighted_sum_fold rows :
  weighted_sum rows
  = fold_left (fun acc row =>
                 PyFloat.add acc (PyFloat.mul (row_weight row) (PyFloat.of_int_ieee (sks row))))
              rows zero.
Proof.
  unfold weighted_sum, float_sum. generalize zero.
  induction rows as [|row rows IH]; intros acc; [reflexivity|].
  cbn [map fold_left]. apply IH.
Qed.

(** C6. The two sums are accumulated, and the quotient is taken, on
    values that were not rounded: each turn of the loop adds the product of
    the weight and the credit hours as it is, the quotient is that of the
    two accumulators, and [round] is applied to the returned sum and to
    the returned quotient only. *)
Theorem rounding_only_at_output (n : string) (rows : list krs_row) :
  rows <> [] ->
  Forall has_grade rows ->
  Forall (fun row => fits_float (sks row)) rows ->
  fits_float (total_credits rows) ->
  exists tb ts ips body,
    accumulate rows (PyFloat.decimal 0 1, 0) = Ok (tb, ts) /\
    tb = fold_left (fun acc row =>
                      PyFloat.add acc (PyFloat.mul (row_weight row) (PyFloat.of_int_ieee (sks row))))
                   rows (PyFloat.decimal 0 1) /\
    ts = total_credits rows /\
    ips_of tb ts = Ok ips /\
    ips = (if ts =? 0 then PyFloat.decimal 0 1 else PyFloat.div tb (PyFloat.of_int_ieee ts)) /\
    calculate_ips_rows n rows = Ok (VDict body) /\
    dict_get body "total_sks_diambil" = Some (VInt ts) /\
    dict_get body "total_bobot_sks" = Some (VFloat (PyFloat.round2 tb)) /\
    dict_get body "ips" = Some (VFloat (PyFloat.round2 ips)).
Proof.
  intros Hne Hg Hf Ht.
  destruct (calculate_ips_rows_graded n rows Hne Hg Hf Ht) as [info Hcalc].
  exists (weighted_sum rows), (total_credits rows), (gpa rows). eexists.
  change (PyFloat.decimal 0 1) with zero.
  split; [|split; [|split; [|split; [|split; [|split; [exact Hcalc|]]]]]].
  - rewrite accumulate_graded by assumption. now rewrite Z.add_0_l.
  - apply weighted_sum_fold.
  - reflexivity.
  - now apply ips_of_fits.
  - reflexivity.
  - cbn. tauto.
Qed.

Lemma rounding_only_at_output_witness :
  exists tb ts ips body,
    accumulate scenario_rows (PyFloat.decimal 0 1, 0) = Ok (tb, ts) /\
    tb = PyFloat.decimal 300 1 /\
    ts = 9 /\
    ips_of tb ts = Ok ips /\
    ips = PyFloat.div (PyFloat.decimal 300 1) (PyFloat.of_int_ieee 9) /\
    calculate_ips_rows "12345" scenario_rows = Ok (VDict body) /\
    dict_get body "total_bobot_sks" = Some (VFloat (PyFloat.decimal 300 1)) /\
    dict_get body "ips" = Some (VFloat (PyFloat.decimal 333 2)).
Proof.
  destruct (rounding_only_at_output "12345" scenario_rows)
    as (tb & ts & ips & body & H1 & H2 & H3 & H4 & H5 & H6 & _ & H7 & H8).
  - discriminate.
  - repeat constructor; discriminate.
  - repeat constructor; vm_compute; discriminate.
  - vm_compute; discriminate.
  - assert (Etb : tb = PyFloat.decimal 300 1) by (rewrite H2; vm_compute; reflexivity).
    assert (Eips : ips = PyFloat.div (PyFloat.decimal 300 1) (PyFloat.of_int_ieee 9))
      by (rewrite H5, H3, Etb; reflexivity).
    exists tb, ts, ips, body.
    split; [exact H1|]. split; [exact Etb|]. split; [exact H3|]. split; [exact H4|].
    split; [exact Eips|]. split; [exact H6|]. split.
    + rewrite H7, Etb. vm_compute. reflexivity.
    + rewrite H8, Eips. vm_compute. reflexivity.
Defined.

(* ================================================================== *)
(** * Rows with bounded credit hours *)

Lemma sks_le_total rows row :
  Forall (fun row => 0 <= sks row) rows -> In row rows -> sks row <= total_credits rows.
Proof.
  unfold total_credits. induction 1 as [|r rows Hr Hrows IH]; cbn [map fold_right In].
  - contradiction.
  - pose proof (total_credits_nonneg rows Hrows) as Ht. unfold total_credits in Ht.
    intros [->|Hin]; [lia|]. specialize (IH Hin). lia.
Qed.

Lemma bounded_rows_fit rows :
  Forall (fun row => 0 <= sks row) rows -> total_credits rows < 2 ^ 49 ->
  Forall (fun row => fits_float (sks row)) rows /\ fits_float (total_credits rows).
Proof.
  intros Hs Ht. split.
  - rewrite Forall_forall in *. intros row Hin.
    pose proof (sks_le_total rows row ltac:(now rewrite Forall_forall) Hin).
    apply fits_float_small. specialize (Hs row Hin). lia.
  - apply fits_float_small. pose proof (total_credits_nonneg rows Hs). lia.
Qed.

Lemma has_grade_dec row : {has_grade row} + {~ has_grade row}.
Proof.
  unfold has_grade. destruct (nilai row); [left; discriminate|right; tauto].
Qed.

Lemma accumulate_null_grade rows : forall acc,
  Forall (fun row => fits_float (sks row)) rows -> ~ Forall has_grade rows ->
  accumulate rows acc
  = Raise (Other (PyError "AttributeError" "'NoneType' object has no attribute 'upper'")).
Proof.
  induction rows as [|row rows IH]; intros [tb ts] Hf Hn.
  - exfalso. apply Hn. constructor.
  - inversion Hf; subst. cbn [accumulate].
    destruct (has_grade_dec row) as [Hg|Hg].
    + rewrite accumulate_row_graded by assumption. cbn [bind].
      apply IH; [assumption|]. intros Hall. apply Hn. now constructor.
    + unfold has_grade in Hg. unfold accumulate_row.
      destruct (nilai row); [exfalso; apply Hg; discriminate|]. reflexivity.
Qed.

Lemma totals_and_gpa_exact n rows :
  rows <> [] -> Forall has_grade rows ->
  Forall (fun row => 0 <= sks row) rows -> total_credits rows < 2 ^ 49 ->
  totals_and_gpa n rows
  = Ok [Some (VInt (total_credits rows));
        Some (VFloat (PyFloat.round2 (exact (quarter_sum rows) (-2))));
        Some (VFloat (PyFloat.round2
                        (if total_credits rows =? 0 then zero
                         else PyFloat.div (exact (quarter_sum rows) (-2))
                                          (exact (total_credits rows) 0))))].
Proof.
  intros Hne Hg Hs Ht.
  destruct (bounded_rows_fit rows Hs Ht) as [Hf Hft].
  unfold totals_and_gpa.
  destruct (calculate_ips_rows_graded n rows Hne Hg Hf Hft) as [info ->].
  cbn. unfold gpa. rewrite weighted_sum_exact by assumption. reflexivity.
Qed.

(** C5, as the code has it. When the credit hours are non-negative and
    their total is below 2^49, no sum is rounded, and the totals and the GPA
    are the same for every order of the rows. *)
Theorem gpa_order_independent (n : string) (rows rows' : list krs_row) :
  Permutation rows rows' ->
  Forall (fun row => 0 <= sks row) rows ->
  total_credits rows < 2 ^ 49 ->
  totals_and_gpa n rows = totals_and_gpa n rows'.
Proof.
  intros Hp Hs Ht.
  assert (Hs' : Forall (fun row => 0 <= sks row) rows') by (eapply Permutation_Forall; eauto).
  assert (Ht' : total_credits rows' < 2 ^ 49) by (rewrite <- (total_credits_perm _ _ Hp); exact Ht).
  destruct rows as [|r0 rows0].
  { apply Permutation_nil in Hp. subst. reflexivity. }
  assert (Hne' : rows' <> []).
  { intros ->. apply Permutation_sym, Permutation_nil in Hp. discriminate. }
  destruct (Forall_dec has_grade has_grade_dec (r0 :: rows0)) as [Hg|Hg].
  - assert (Hg' : Forall has_grade rows') by (eapply Permutation_Forall; eauto).
    rewrite !totals_and_gpa_exact; try assumption; try discriminate.
    now rewrite (total_credits_perm _ _ Hp), (quarter_sum_perm _ _ Hp).
  - assert (Hg' : ~ Forall has_grade rows').
    { intros H. apply Hg. eapply Permutation_Forall; [apply Permutation_sym; eauto|exact H]. }
    destruct (bounded_rows_fit _ Hs Ht) as [Hf _].
    destruct (bounded_rows_fit _ Hs' Ht') as [Hf' _].
    unfold totals_and_gpa, calculate_ips_rows.
    destruct rows' as [|r0' rows0']; [congruence|].
    rewrite !accumulate_null_grade by assumption. reflexivity.
Qed.

Lemma gpa_order_independent_witness :
  totals_and_gpa "12345" (rev scenario_rows)
  = Ok [Some (VInt 9); Some (VFloat (PyFloat.decimal 300 1));
        Some (VFloat (PyFloat.decimal 333 2))].
Proof.
  rewrite <- (gpa_order_independent "12345" scenario_rows (rev scenario_rows)).
  - vm_compute. reflexivity.
  - apply Permutation_rev.
  - repeat constructor; cbn; lia.
  - vm_compute. reflexivity.
Defined.

(** C5, as stated, fails when a sum is rounded: with a credit-hour count
    of 2^53 the total weighted contribution depends on the order of the
    rows. *)
Lemma gpa_order_dependent :
  let big := enrollment (Some "A") (2 ^ 53) in
  let one := enrollment (Some "A") 1 in
  Permutation [big; one; one] [one; one; big] /\
  totals_and_gpa "12345" [big; one; one]
  = Ok [Some (VInt (2 ^ 53 + 2)); Some (VFloat (exact (2 ^ 55) 0)); Some (VFloat four)] /\
  totals_and_gpa "12345" [one; one; big]
  = Ok [Some (VInt (2 ^ 53 + 2)); Some (VFloat (exact (2 ^ 55 + 8) 0)); Some (VFloat four)] /\
  totals_and_gpa "12345" [big; one; one] <> totals_and_gpa "12345" [one; one; big].
Proof.
  cbv zeta. split; [|split; [|split]].
  - change [enrollment (Some "A") 1; enrollment (Some "A") 1; enrollment (Some "A") (2 ^ 53)]
      with ([enrollment (Some "A") 1; enrollment (Some "A") 1]
              ++ [enrollment (Some "A") (2 ^ 53)])%list.
    apply Permutation_cons_append.
  - vm_compute. reflexivity.
  - vm_compute. reflexivity.
  - vm_compute. discriminate.
Qed.

Lemma grade_weight_in_0_4 s : in_0_4 (grade_weight s).
Proof.
  pose proof (grade_weight_values s) as H. cbn [In] in H.
  repeat (destruct H as [<-|H]; [split; vm_compute; reflexivity|]). contradiction.
Qed.

Lemma gpa_upto_four rows :
  Forall (fun row => 0 <= sks row) rows -> total_credits rows < 2 ^ 49 ->
  upto_four (gpa rows).
Proof.
  intros Hs Ht. unfold gpa.
  pose proof (total_credits_nonneg rows Hs) as H0.
  pose proof (quarter_sum_range rows Hs) as Hq.
  destruct (Z.eqb_spec (total_credits rows) 0) as [E|E]; [left; reflexivity|].
  rewrite weighted_sum_exact, of_int_ieee_exact by assumption.
  apply div_le_four; lia.
Qed.

(** C9, as the code has it. When the credit hours are non-negative and
    their total is below 2^49, the GPA lies between 0.0 and 4.0, before and
    after it is rounded to two decimals; every weight of the lookup lies
    between 0.0 and 4.0. *)
Theorem gpa_within_scale (n : string) (rows : list krs_row) :
  rows <> [] ->
  Forall has_grade rows ->
  Forall (fun row => 0 <= sks row) rows ->
  total_credits rows < 2 ^ 49 ->
  exists tb ts ips body,
    unrounded_totals rows = Ok (tb, ts, ips) /\
    PyFloat.leb (PyFloat.decimal 0 1) ips = true /\
    PyFloat.leb ips (PyFloat.decimal 40 1) = true /\
    calculate_ips_rows n rows = Ok (VDict body) /\
    dict_get body "ips" = Some (VFloat (PyFloat.round2 ips)) /\
    PyFloat.leb (PyFloat.decimal 0 1) (PyFloat.round2 ips) = true /\
    PyFloat.leb (PyFloat.round2 ips) (PyFloat.decimal 40 1) = true /\
    Forall (fun row => exists w, convert_grade_to_weight (nilai row) = Ok w /\ in_0_4 w) rows.
Proof.
  intros Hne Hg Hs Ht.
  destruct (bounded_rows_fit rows Hs Ht) as [Hf Hft].
  destruct (calculate_ips_rows_graded n rows Hne Hg Hf Hft) as [info Hcalc].
  pose proof (gpa_upto_four rows Hs Ht) as Hup.
  destruct (upto_four_in_0_4 _ Hup) as [Hlo Hhi].
  destruct (round2_upto_four _ Hup) as [Hlo' Hhi'].
  exists (weighted_sum rows), (total_credits rows), (gpa rows). eexists.
  split; [|split; [exact Hlo|split; [exact Hhi|split; [exact Hcalc|split;
    [reflexivity|split; [exact Hlo'|split; [exact Hhi'|]]]]]]].
  - unfold unrounded_totals. rewrite accumulate_graded by assumption. cbn [bind].
    rewrite Z.add_0_l, ips_of_fits by assumption. reflexivity.
  - rewrite Forall_forall in *. intros row Hin. specialize (Hg row Hin).
    unfold has_grade in Hg. destruct (nilai row) as [s|]; [|congruence].
    exists (grade_weight s). split; [reflexivity|apply grade_weight_in_0_4].
Qed.

Lemma gpa_within_scale_witness :
  exists ips body,
    unrounded_totals scenario_rows = Ok (PyFloat.decimal 300 1, 9, ips) /\
    PyFloat.leb ips (PyFloat.decimal 40 1) = true /\
    calculate_ips_rows "12345" scenario_rows = Ok (VDict body) /\
    dict_get body "ips" = Some (VFloat (PyFloat.decimal 333 2)) /\
    PyFloat.leb (PyFloat.decimal 333 2) (PyFloat.decimal 40 1) = true.
Proof.
  destruct (gpa_within_scale "12345" scenario_rows)
    as (tb & ts & ips & body & H1 & H2 & H3 & H4 & H5 & H6 & H7 & H8).
  - discriminate.
  - repeat constructor; discriminate.
  - repeat constructor; cbn; lia.
  - vm_compute. reflexivity.
  - assert (E : Ok (tb, ts, ips)
                = Ok (PyFloat.decimal 300 1, 9, PyFloat.div (PyFloat.decimal 300 1) (PyFloat.of_int_ieee 9)))
      by (rewrite <- H1; vm_compute; reflexivity).
    injection E as -> -> ->.
    eexists. exists body.
    split; [exact H1|]. split; [exact H3|]. split; [exact H4|]. split.
    + rewrite H5. vm_compute. reflexivity.
    + vm_compute. reflexivity.
Defined.

(** C9, as stated, fails when a sum is rounded: three rows of grade A
    with 2^53 + 3 credit hours each give a GPA above 4.0 before it is
    rounded, and one row of grade A with 2^1022 credit hours gives an
    infinite GPA, before and after. *)
Lemma gpa_exceeds_scale :
  let row := enrollment (Some "A") (2 ^ 53 + 3) in
  let huge := enrollment (Some "A") (2 ^ 1022) in
  Forall (fun row => 0 <= sks row) [row; row; row] /\
  unrounded_totals [row; row; row]
  = Ok (exact (3 * 2 ^ 55 + 48) 0, 3 * 2 ^ 53 + 9, S754_finite false (2 ^ 52 + 1) (-50)) /\
  PyFloat.leb (S754_finite false (2 ^ 52 + 1) (-50)) (PyFloat.decimal 40 1) = false /\
  Forall (fun row => 0 <= sks row) [huge] /\
  unrounded_totals [huge] = Ok (S754_infinity false, 2 ^ 1022, S754_infinity false) /\
  totals_and_gpa "12345" [huge]
  = Ok [Some (VInt (2 ^ 1022)); Some (VFloat (S754_infinity false));
        Some (VFloat (S754_infinity false))] /\
  PyFloat.leb (S754_infinity false) (PyFloat.decimal 40 1) = false.
Proof.
  cbv zeta. repeat split; try (vm_compute; reflexivity).
  - repeat constructor; cbn; lia.
  - repeat constructor; cbn; lia.
Qed.

(* ================================================================== *)
(** * More of binary64: exact quotients and overflow *)

(** Division is exact when the shifted dividend is a multiple of the
    divisor and the quotient has at most 53 significant bits. *)
Lemma div_finite_exact sx m1 e1 m2 e2 e' c k :
  Z.min (fexp PyFloat.prec PyFloat.emax
           (Zdigits2 (Zpos m1) + e1 - (Zdigits2 (Zpos m2) + e2))) (e1 - e2) = e' ->
  0 < e1 - e2 - e' ->
  Zpos m1 * 2 ^ (e1 - e2 - e') = Zpos m2 * (Zpos c * 2 ^ k) ->
  2 ^ 52 <= Zpos c < 2 ^ 53 -> 0 <= k -> -1074 <= e' + k <= 971 ->
  PyFloat.div (S754_finite sx m1 e1) (S754_finite false m2 e2) = S754_finite sx c (e' + k).
Proof.
  intros He' Hs Hm Hc Hk Hr.
  unfold PyFloat.div. cbn [SFdiv]. unfold SFdiv_core_binary. rewrite He'.
  destruct (e1 - e2 - e') as [|s|s] eqn:Es; try lia.
  rewrite Z.shiftl_mul_pow2 by lia. rewrite Hm.
  assert (0 < 2 ^ k) by (apply Z.pow_pos_nonneg; lia).
  destruct (Z.div_eucl (Zpos m2 * (Zpos c * 2 ^ k)) (Zpos m2)) as [q r] eqn:Ed.
  assert (Eq : q = Zpos c * 2 ^ k).
  { transitivity (Zpos m2 * (Zpos c * 2 ^ k) / Zpos m2).
    - unfold Z.div. now rewrite Ed.
    - rewrite Z.mul_comm. apply Z.div_mul. lia. }
  assert (Er : r = 0).
  { transitivity ((Zpos m2 * (Zpos c * 2 ^ k)) mod Zpos m2).
    - unfold Z.modulo. now rewrite Ed.
    - rewrite Z.mul_comm. apply Z.mod_mul. lia. }
  subst q r.
  rewrite new_location_0. rewrite Bool.xorb_false_r.
  replace e' with (e' + k - k) at 1 by lia.
  apply binary_round_aux_exact; lia.
Qed.

Lemma round2_exact_quarters a :
  0 <= a < 2 ^ 53 -> PyFloat.round2 (exact a (-2)) = exact a (-2).
Proof.
  intros Ha. destruct (Z.eq_dec a 0) as [->|Hz]; [reflexivity|].
  assert (Ha' : 0 < a < 2 ^ 53) by lia.
  rewrite (exact_finite a) by lia.
  pose proof (nman_normal a Ha') as Hm. pose proof (nexp_nonneg a Ha') as Hn.
  assert (Hlog : 0 <= Z.log2 a < 53).
  { split; [apply Z.log2_nonneg|apply Z.log2_lt_pow2; lia]. }
  assert (Hn' : nexp a = 52 - Z.log2 a) by reflexivity.
  unfold PyFloat.round2.
  assert (Hh : PyFloat.hundredths (Z.to_pos (nman a)) (-2 - nexp a) = 25 * a).
  { destruct (-2 - nexp a) as [|p|p] eqn:Ee; try lia.
    unfold PyFloat.hundredths, PyFloat.div_half_even.
    assert (Ep : Zpos p = 2 + nexp a) by lia.
    assert (0 < 2 ^ nexp a) by (apply Z.pow_pos_nonneg; lia).
    assert (Ed : 2 ^ Zpos p = 4 * 2 ^ nexp a).
    { rewrite Ep, Z.pow_add_r by lia. reflexivity. }
    rewrite Z2Pos.id by lia. rewrite Ed.
    assert (En : 100 * nman a = 25 * a * (4 * 2 ^ nexp a)) by (unfold nman; ring).
    rewrite En, Z.div_mul, Z.mod_mul by lia.
    replace (2 * 0 ?= 4 * 2 ^ nexp a) with Lt by (symmetry; apply Z.compare_lt_iff; lia).
    reflexivity. }
  rewrite Hh. destruct (25 * a) as [|n|n] eqn:En; try lia.
  unfold PyFloat.nearest_quotient.
  (* 16 a <= 25 a < 32 a *)
  destruct (Z.log2_spec a ltac:(lia)) as [Hlo Hhi].
  assert (Hl25 : Z.log2 (Zpos n) = Z.log2 a + 4 \/ Z.log2 (Zpos n) = Z.log2 a + 5).
  { assert (Zpos n < 2 ^ (Z.log2 a + 5) \/ 2 ^ (Z.log2 a + 5) <= Zpos n) as [H|H] by lia.
    - left. apply Z.log2_unique; [lia|]. rewrite Z.pow_add_r by lia.
      replace (Z.succ (Z.log2 a + 4)) with (Z.log2 a + 5) by lia.
      change (2 ^ 4) with 16. lia.
    - right. apply Z.log2_unique; [lia|].
      replace (Z.succ (Z.log2 a + 5)) with (Z.succ (Z.log2 a) + 5) by lia.
      rewrite (Z.pow_add_r _ (Z.succ _)) by lia. change (2 ^ 5) with 32. lia. }
  set (L := Z.log2 (Zpos n)) in *.
  assert (Hpos : Zpos (Z.to_pos (nman a)) = nman a) by (apply Z2Pos.id; lia).
  replace (-2 - nexp a) with (L - 59 + (Z.log2 a + 5 - L)) by lia.
  apply div_finite_exact.
  - rewrite !Zdigits2_pos_log2 by lia. fold L. change (Z.log2 100) with 6.
    unfold fexp, emin, PyFloat.prec, PyFloat.emax. lia.
  - lia.
  - rewrite Hpos. replace (0 - 0 - (L - 59)) with (59 - L) by lia.
    rewrite <- En. unfold nman.
    assert (E : 2 ^ (59 - L) = 4 * (2 ^ nexp a * 2 ^ (Z.log2 a + 5 - L))).
    { change 4 with (2 ^ 2). rewrite <- !Z.pow_add_r by lia. f_equal. lia. }
    rewrite E. ring.
  - lia.
  - lia.
  - lia.
Qed.

Lemma div_exact_product q S :
  0 <= q < 2 ^ 53 -> 0 < S < 2 ^ 53 -> q * S < 2 ^ 53 ->
  PyFloat.div (exact (q * S) (-2)) (exact S 0) = exact q (-2).
Proof.
  intros Hq HS HqS.
  destruct (Z.eq_dec q 0) as [->|Hz].
  { rewrite Z.mul_0_l. rewrite (exact_finite S) by lia. reflexivity. }
  assert (Hq' : 0 < q < 2 ^ 53) by lia.
  assert (HqS' : 0 < q * S < 2 ^ 53) by nia.
  rewrite (exact_finite (q * S)), (exact_finite S), (exact_finite q) by lia.
  pose proof (nman_normal _ Hq') as Hmq. pose proof (nman_normal _ HS) as HmS.
  pose proof (nman_normal _ HqS') as HmqS.
  pose proof (nexp_nonneg _ Hq') as Hnq. pose proof (nexp_nonneg _ HS) as HnS.
  pose proof (nexp_nonneg _ HqS') as HnqS.
  pose proof (Z.log2_mul_below q S ltac:(lia) ltac:(lia)) as Hbelow.
  pose proof (Z.log2_mul_above q S ltac:(lia) ltac:(lia)) as Habove.
  pose proof (Z.log2_nonneg q). pose proof (Z.log2_nonneg S).
  set (k := 1 + Z.log2 S + Z.log2 q - Z.log2 (q * S)).
  assert (Hk : 0 <= k <= 1) by (unfold k; lia).
  replace (-2 - nexp q) with (-2 - nexp (q * S) - (0 - nexp S) - 53 + k)
    by (unfold k, nexp; lia).
  apply div_finite_exact.
  - rewrite !Zdigits2_pos_log2, !Z2Pos.id by lia.
    rewrite (log2_normal _ HmqS), (log2_normal _ HmS).
    unfold fexp, emin, PyFloat.prec, PyFloat.emax, nexp. lia.
  - lia.
  - rewrite !Z2Pos.id by lia.
    replace (-2 - nexp (q * S) - (0 - nexp S) - (-2 - nexp (q * S) - (0 - nexp S) - 53)) with 53 by lia.
    unfold nman.
    assert (E : 2 ^ nexp (q * S) * 2 ^ 53 = 2 ^ nexp S * (2 ^ nexp q * 2 ^ k)).
    { rewrite <- !Z.pow_add_r by lia. f_equal. unfold k, nexp. lia. }
    transitivity (q * S * (2 ^ nexp (q * S) * 2 ^ 53)); [ring|]. rewrite E. ring.
  - rewrite Z2Pos.id by lia. exact Hmq.
  - lia.
  - pose proof (Z.log2_nonneg (q * S)). unfold nexp in *. lia.
Qed.

Lemma shr_fexp_exponent m e l :
  e <= snd (shr_fexp PyFloat.prec PyFloat.emax m e l).
Proof.
  unfold shr_fexp, shr.
  destruct (fexp PyFloat.prec PyFloat.emax (Zdigits2 m + e) - e); cbn [snd]; lia.
Qed.

Lemma binary_round_int_overflow s p :
  2 ^ 1024 <= Zpos p ->
  binary_round PyFloat.prec PyFloat.emax s p 0 = S754_infinity s.
Proof.
  intros Hp.
  assert (Hlog : 1024 <= Z.log2 (Zpos p)) by (apply Z.log2_le_pow2; lia).
  unfold binary_round. rewrite Zdigits2_log2.
  replace (fexp PyFloat.prec PyFloat.emax (Z.log2 (Zpos p) + 1 + 0)) with (Z.log2 (Zpos p) - 52)
    by (unfold fexp, emin, PyFloat.prec, PyFloat.emax; lia).
  unfold shl_align.
  destruct (Z.log2 (Zpos p) - 52 - 0) as [|k|k] eqn:Ek; try lia.
  unfold binary_round_aux.
  pose proof (shr_fexp_positive (Zpos p) 0 loc_Exact ltac:(lia) ltac:(lia)) as [H1 H2].
  assert (H3 : snd (shr_fexp PyFloat.prec PyFloat.emax (Zpos p) 0 loc_Exact) = Zpos k).
  { unfold shr_fexp. rewrite Zdigits2_pos_log2 by lia.
    replace (fexp PyFloat.prec PyFloat.emax (Z.log2 (Zpos p) + 1 + 0) - 0) with (Zpos k)
      by (unfold fexp, emin, PyFloat.prec, PyFloat.emax; lia).
    reflexivity. }
  destruct (shr_fexp PyFloat.prec PyFloat.emax (Zpos p) 0 loc_Exact) as [mrs e'].
  cbn [fst snd] in H1, H2, H3. subst e'.
  set (m1 := round_nearest_even (shr_m mrs) (loc_of_shr_record mrs)).
  assert (Hm1 : 0 < m1)
    by (unfold m1; destruct (round_nearest_even_cases (shr_m mrs) (loc_of_shr_record mrs)) as [-> | ->]; lia).
  pose proof (shr_fexp_positive m1 (Zpos k) loc_Exact Hm1 ltac:(lia)) as [H4 _].
  pose proof (shr_fexp_exponent m1 (Zpos k) loc_Exact) as H5.
  destruct (shr_fexp PyFloat.prec PyFloat.emax m1 (Zpos k) loc_Exact) as [mrs2 e2].
  cbn [fst snd] in H4, H5.
  destruct (shr_m mrs2); try lia.
  replace (e2 <=? PyFloat.emax - PyFloat.prec) with false; [reflexivity|].
  symmetry. apply Z.leb_gt. unfold PyFloat.emax, PyFloat.prec. lia.
Qed.

Lemma of_int_overflow n : 2 ^ 1024 <= Z.abs n -> PyFloat.of_int n = None.
Proof.
  intros H. unfold PyFloat.of_int, PyFloat.of_int_ieee.
  destruct n as [|p|p]; cbn [binary_normalize].
  - cbn in H. lia.
  - rewrite binary_round_int_overflow by lia. reflexivity.
  - rewrite binary_round_int_overflow by lia. reflexivity.
Qed.

(* ================================================================== *)
(** * The connection and the transaction *)

(** X1. Once the connection is opened, whatever the block does: the driver
    calls are [connect], those of the block, then the end of the
    transaction and [close], which comes last and once.  The commit is
    attempted exactly when the block completes, a rollback is made exactly
    when an exception leaves the context manager, an exception of the
    block leaves it unchanged, and a value is returned only if the block
    returned it. *)
Theorem connection_discipline {A} (st : Store) (body : io A) :
  connect_error st = None ->
  Forall (fun ev => exists q, ev = EvExecute q) (snd body) ->
  (exists mid,
      snd (get_db_connection st body) = (EvConnect :: snd body ++ mid ++ [EvClose])%list /\
      (mid = [EvCommit] \/ mid = [EvCommit; EvRollback] \/ mid = [EvRollback])) /\
  (In EvCommit (snd (get_db_connection st body)) <-> exists v, fst body = Ok v) /\
  (In EvRollback (snd (get_db_connection st body))
   <-> exists e, fst (get_db_connection st body) = Raise e) /\
  (forall e, fst body = Raise e -> fst (get_db_connection st body) = Raise e) /\
  (forall v, fst (get_db_connection st body) = Ok v -> fst body = Ok v).
Proof.
  intros Hc Hbody. unfold get_db_connection. rewrite Hc.
  destruct body as [r tr]. cbn [fst snd] in *.
  assert (Hno : forall ev, In ev tr -> ev <> EvCommit /\ ev <> EvRollback).
  { intros ev Hin. rewrite Forall_forall in Hbody.
    destruct (Hbody ev Hin) as [q ->]. split; discriminate. }
  assert (Hin : forall ev mid, (ev = EvCommit \/ ev = EvRollback) ->
                  (In ev (EvConnect :: tr ++ mid) <-> In ev mid)).
  { intros ev mid Hev. cbn [In]. rewrite in_app_iff. split.
    - intros [H|[H|H]]; [destruct Hev; subst; discriminate| |exact H].
      destruct (Hno ev H). destruct Hev; contradiction.
    - tauto. }
  destruct r as [v|e]; [destruct (commit_error st) as [e|]|]; cbn [fst snd].
  - split; [exists [EvCommit; EvRollback]; cbn; tauto|].
    rewrite !Hin by tauto. cbn [In].
    repeat split; try tauto; try discriminate; eauto; intros; try congruence.
  - split; [exists [EvCommit]; cbn; tauto|].
    rewrite !Hin by tauto. cbn [In].
    repeat split; try tauto; try discriminate; eauto.
    + intros [H|[H|[]]]; discriminate.
    + intros [e H]. discriminate.
  - split; [exists [EvRollback]; cbn; tauto|].
    rewrite !Hin by tauto. cbn [In].
    repeat split; try tauto; try discriminate; eauto.
    + intros [H|[H|[]]]; discriminate.
    + intros [v H]. discriminate.
Qed.

Lemma connection_discipline_witness :
  snd (get_db_connection (store_with [])
         (@Raise nat (HTTPException 404 "x"), [EvExecute SelectMahasiswa]))
  = [EvConnect; EvExecute SelectMahasiswa; EvRollback; EvClose] /\
  fst (get_db_connection (store_with [])
         (@Raise nat (HTTPException 404 "x"), [EvExecute SelectMahasiswa]))
  = Raise (HTTPException 404 "x").
Proof.
  destruct (connection_discipline (store_with [])
              (@Raise nat (HTTPException 404 "x"), [EvExecute SelectMahasiswa]))
    as (_ & _ & _ & H & _).
  - reflexivity.
  - repeat constructor. eexists. reflexivity.
  - split; [reflexivity|]. apply H. reflexivity.
Defined.

(** X2. A request for the GPA makes one of five sequences of driver calls:
    none; a failed [connect]; a query followed by rollback and close; a
    query followed by commit and close; or a query followed by a failed
    commit, rollback and close.  The only query is the one for the
    identifier asked, and a value is returned exactly when the sequence
    is the committed one. *)
Theorem ips_driver_calls (st : Store) (n : string) :
  In (snd (route_ips st (Some n)))
     [ [];
       [EvConnect];
       [EvConnect; EvExecute (SelectKrs n); EvRollback; EvClose];
       [EvConnect; EvExecute (SelectKrs n); EvCommit; EvClose];
       [EvConnect; EvExecute (SelectKrs n); EvCommit; EvRollback; EvClose] ] /\
  ((exists v, fst (route_ips st (Some n)) = Returned v)
   <-> snd (route_ips st (Some n))
       = [EvConnect; EvExecute (SelectKrs n); EvCommit; EvClose]).
Proof.
  unfold route_ips.
  destruct (len n <? 5)%nat.
  { cbn. split; [tauto|]. split; [intros [v H]|intros H]; discriminate. }
  unfold calculate_ips, get_db_connection, fetchall.
  destruct (connect_error st) as [e|].
  { cbn. split; [tauto|]. split; [intros [v H]|intros H]; discriminate. }
  destruct (select_krs st n) as [e|rows]; cbn [bind].
  { cbn. split; [tauto|]. split; [intros [v H]|intros H]; discriminate. }
  destruct (calculate_ips_rows n rows) as [v|e].
  - destruct (commit_error st) as [e|]; cbn.
    + split; [tauto|]. split; [intros [v' H]|intros H]; discriminate.
    + split; [tauto|]. split; [reflexivity|]. intros _. eexists. reflexivity.
  - cbn [fst snd app]. split; [cbn; tauto|].
    split; [intros [v H]|intros H]; [|discriminate].
    destruct e as [c d|e]; discriminate.
Qed.

Lemma accumulate_not_http rows : forall acc c d,
  accumulate rows acc <> Raise (HTTPException c d).
Proof.
  induction rows as [|row rows IH]; intros [tb ts] c d; cbn [accumulate]; [discriminate|].
  unfold accumulate_row, convert_grade_to_weight, float_mul_int.
  destruct (nilai row); cbn [bind]; [|discriminate].
  destruct (PyFloat.of_int (sks row)); cbn [bind]; [apply IH|discriminate].
Qed.

Lemma calculate_ips_rows_http n rows c d :
  calculate_ips_rows n rows = Raise (HTTPException c d) -> rows = [] /\ c = 404.
Proof.
  unfold calculate_ips_rows. destruct rows as [|first rest].
  - intros [= <- _]. split; reflexivity.
  - pose proof (accumulate_not_http (first :: rest) (PyFloat.decimal 0 1, 0) c d) as Hacc.
    destruct (accumulate (first :: rest) (PyFloat.decimal 0 1, 0)) as [[tb ts]|e]; cbn [bind].
    + unfold ips_of, float_div_int.
      destruct (ts =? 0); cbn [bind]; [discriminate|].
      destruct (PyFloat.of_int ts); [|discriminate].
      destruct (PyFloat.is_zero s); discriminate.
    + intros H. congruence.
Qed.

(** X3. A request for the GPA ends in a returned value or in one of the
    statuses 404, 422 and 500, and in nothing else: no exception other than
    [HTTPException] leaves the function.  The status is 404 only if the
    store was reached and the query returned no row, and 422 exactly when
    the identifier is missing or shorter than 5 characters. *)
Theorem ips_statuses (st : Store) (q : option string) :
  In (error_status (fst (route_ips st q))) [None; Some 404; Some 422; Some 500] /\
  (error_status (fst (route_ips st q)) = Some 404 ->
   exists n, q = Some n /\ connect_error st = None /\ select_krs st n = inr []) /\
  (error_status (fst (route_ips st q)) = Some 422 <->
   q = None \/ exists n, q = Some n /\ (len n < 5)%nat) /\
  (forall n e, fst (calculate_ips st n) <> Raise (Other e)).
Proof.
  assert (Hcalc : forall n,
             (exists v, fst (calculate_ips st n) = Ok v) \/
             (exists d, fst (calculate_ips st n) = Raise (HTTPException 404 d) /\
                        connect_error st = None /\ select_krs st n = inr []) \/
             (exists d, fst (calculate_ips st n) = Raise (HTTPException 500 d))).
  { intros n. unfold calculate_ips, get_db_connection, fetchall.
    destruct (connect_error st) as [e|]; [right; right; eexists; reflexivity|].
    destruct (select_krs st n) as [e|rows]; cbn [bind];
      [right; right; eexists; reflexivity|].
    destruct (calculate_ips_rows n rows) as [v|e] eqn:E.
    - destruct (commit_error st); [right; right|left]; eexists; reflexivity.
    - destruct e as [c d|e]; [|right; right; eexists; reflexivity].
      destruct (calculate_ips_rows_http n rows c d E) as [-> ->].
      right; left. exists d. cbn. tauto. }
  assert (Hroute : forall n, (len n <? 5)%nat = false ->
             fst (route_ips st (Some n)) = reply_of (fst (calculate_ips st n))).
  { intros n Hlen. unfold route_ips. rewrite Hlen.
    destruct (calculate_ips st n). reflexivity. }
  split; [|split; [|split]].
  - destruct q as [n|]; [|cbn; tauto].
    destruct (len n <? 5)%nat eqn:Hlen; [unfold route_ips; rewrite Hlen; cbn; tauto|].
    rewrite (Hroute n Hlen).
    destruct (Hcalc n) as [[v ->]|[(d & -> & _)|[d ->]]]; cbn; tauto.
  - destruct q as [n|]; [|cbn; discriminate].
    destruct (len n <? 5)%nat eqn:Hlen; [unfold route_ips; rewrite Hlen; cbn; discriminate|].
    rewrite (Hroute n Hlen).
    destruct (Hcalc n) as [[v ->]|[(d & -> & Hc & Hs)|[d ->]]]; cbn; try discriminate.
    intros _. exists n. tauto.
  - destruct q as [n|].
    + destruct (len n <? 5)%nat eqn:Hlen.
      * unfold route_ips. rewrite Hlen. cbn. split; [|reflexivity].
        intros _. right. exists n. split; [reflexivity|]. now apply Nat.ltb_lt.
      * rewrite (Hroute n Hlen). apply Nat.ltb_ge in Hlen.
        split.
        -- destruct (Hcalc n) as [[v ->]|[(d & -> & _)|[d ->]]]; cbn; discriminate.
        -- intros [H|(n' & [= <-] & H)]; [discriminate|lia].
    + cbn. split; [left|]; reflexivity.
  - intros n e. destruct (Hcalc n) as [[v ->]|[(d & -> & _)|[d ->]]]; discriminate.
Qed.

(** X4. When the store fails, a well-formed request for the GPA is answered
    with 500 and the driver's message after a fixed prefix: a failed
    [connect] is followed by no other call; a failed query is rolled back;
    and a failed commit discards the value that was computed. *)
Theorem ips_store_failures (st : Store) (n : string) (e : py_error) :
  (5 <= len n)%nat ->
  (connect_error st = Some e ->
   route_ips st (Some n)
   = (ReplyError 500 ("Terjadi kesalahan server: " ++ exc_msg e), [EvConnect])) /\
  (connect_error st = None -> select_krs st n = inl e ->
   route_ips st (Some n)
   = (ReplyError 500 ("Terjadi kesalahan server: " ++ exc_msg e),
      [EvConnect; EvExecute (SelectKrs n); EvRollback; EvClose])) /\
  (forall rows v,
      connect_error st = None -> select_krs st n = inr rows ->
      calculate_ips_rows n rows = Ok v -> commit_error st = Some e ->
      route_ips st (Some n)
      = (ReplyError 500 ("Terjadi kesalahan server: " ++ exc_msg e),
         [EvConnect; EvExecute (SelectKrs n); EvCommit; EvRollback; EvClose])).
Proof.
  intros Hlen. split; [|split].
  - intros Hc. unfold route_ips.
    replace (len n <? 5)%nat with false by (symmetry; apply Nat.ltb_ge; exact Hlen).
    unfold calculate_ips, get_db_connection. rewrite Hc. reflexivity.
  - intros Hc Hq. unfold route_ips.
    replace (len n <? 5)%nat with false by (symmetry; apply Nat.ltb_ge; exact Hlen).
    unfold calculate_ips, get_db_connection, fetchall. rewrite Hc, Hq. reflexivity.
  - intros rows v Hc Hq Hv Hcm.
    rewrite (route_ips_fetched st n rows Hlen Hc Hq), Hv, Hcm. reflexivity.
Qed.

Lemma ips_store_failures_witness :
  route_ips store_down (Some "12345")
  = (ReplyError 500 "Terjadi kesalahan server: connection refused", [EvConnect]) /\
  route_ips store_query_error (Some "12345")
  = (ReplyError 500 "Terjadi kesalahan server: relation krs does not exist",
     [EvConnect; EvExecute (SelectKrs "12345"); EvRollback; EvClose]) /\
  route_ips (store_commit_error scenario_rows) (Some "12345")
  = (ReplyError 500 "Terjadi kesalahan server: server closed the connection",
     [EvConnect; EvExecute (SelectKrs "12345"); EvCommit; EvRollback; EvClose]).
Proof.
  split; [|split].
  - apply (ips_store_failures store_down "12345"
             (PyError "OperationalError" "connection refused")); [vm_compute; lia|reflexivity].
  - destruct (ips_store_failures store_query_error "12345"
                (PyError "ProgrammingError" "relation krs does not exist"))
      as (_ & H & _); [vm_compute; lia|]. apply H; reflexivity.
  - destruct (ips_store_failures (store_commit_error scenario_rows) "12345"
                (PyError "OperationalError" "server closed the connection"))
      as (_ & _ & H); [vm_compute; lia|].
    destruct (calculate_ips_rows "12345" scenario_rows) as [v|e0] eqn:E;
      [|vm_compute in E; discriminate].
    apply (H scenario_rows v); try reflexivity. exact E.
Defined.

(* ================================================================== *)
(** * Edge cases of the GPA computation *)

Lemma exists_null_grade rows :
  Exists (fun row => nilai row = None) rows -> ~ Forall has_grade rows.
Proof.
  intros Hex Hall. rewrite Exists_exists in Hex. destruct Hex as (row & Hin & Hnull).
  rewrite Forall_forall in Hall. exact (Hall row Hin Hnull).
Qed.

(** X5. One row without a grade, at any place among rows whose credit
    hours convert to a float, makes the whole request fail with 500 and
    the message of the [AttributeError]; the transaction is rolled back. *)
Theorem null_grade_anywhere (st : Store) (n : string) (rows : list krs_row) :
  (5 <= len n)%nat ->
  connect_error st = None ->
  select_krs st n = inr rows ->
  Forall (fun row => fits_float (sks row)) rows ->
  Exists (fun row => nilai row = None) rows ->
  route_ips st (Some n)
  = (ReplyError 500 "Terjadi kesalahan server: 'NoneType' object has no attribute 'upper'",
     [EvConnect; EvExecute (SelectKrs n); EvRollback; EvClose]).
Proof.
  intros Hlen Hc Hq Hf Hex.
  rewrite (route_ips_fetched st n rows Hlen Hc Hq).
  pose proof (exists_null_grade rows Hex) as Hn.
  unfold calculate_ips_rows. destruct rows as [|first rest]; [inversion Hex|].
  rewrite accumulate_null_grade by assumption. reflexivity.
Qed.

Lemma null_grade_anywhere_witness :
  route_ips (store_with (scenario_rows ++ [enrollment None 3])%list) (Some "12345")
  = (ReplyError 500 "Terjadi kesalahan server: 'NoneType' object has no attribute 'upper'",
     [EvConnect; EvExecute (SelectKrs "12345"); EvRollback; EvClose]).
Proof.
  apply (null_grade_anywhere (store_with (scenario_rows ++ [enrollment None 3])%list) "12345"
           (scenario_rows ++ [enrollment None 3])%list).
  - vm_compute. lia.
  - reflexivity.
  - reflexivity.
  - repeat constructor; vm_compute; discriminate.
  - cbn. do 3 apply Exists_cons_tl. apply Exists_cons_hd. reflexivity.
Defined.

(** X6. The response has the four keys mahasiswa, total_sks_diambil,
    total_bobot_sks and ips, in this order, and the student's data in it
    are those of the first row, whatever the other rows hold. *)
Theorem response_shape (n : string) (first : krs_row) (rest : list krs_row) :
  Forall has_grade (first :: rest) ->
  Forall (fun row => fits_float (sks row)) (first :: rest) ->
  fits_float (total_credits (first :: rest)) ->
  exists body info,
    calculate_ips_rows n (first :: rest) = Ok (VDict body) /\
    keys body = ["mahasiswa"; "total_sks_diambil"; "total_bobot_sks"; "ips"] /\
    dict_get body "mahasiswa" = Some (VDict info) /\
    info = [("nim", VStr (nim first)); ("nama", VStr (nama first));
            ("jurusan", VStr (jurusan first))].
Proof.
  intros Hg Hf Ht.
  unfold calculate_ips_rows. change (PyFloat.decimal 0 1) with zero.
  rewrite accumulate_graded by assumption. cbn [bind].
  rewrite Z.add_0_l, ips_of_fits by assumption. cbn [bind].
  eexists. eexists. split; [reflexivity|]. cbn. tauto.
Qed.

Lemma response_shape_witness :
  exists body,
    calculate_ips_rows "12345"
      (KrsRow "12345" "Budi" "Informatika" (Some "A") 3
         :: [KrsRow "67890" "Sari" "Akuntansi" (Some "B") 2]) = Ok (VDict body) /\
    dict_get body "mahasiswa"
    = Some (VDict [("nim", VStr "12345"); ("nama", VStr "Budi");
                   ("jurusan", VStr "Informatika")]).
Proof.
  destruct (response_shape "12345" (KrsRow "12345" "Budi" "Informatika" (Some "A") 3)
              [KrsRow "67890" "Sari" "Akuntansi" (Some "B") 2])
    as (body & info & H1 & _ & H3 & H4).
  - repeat constructor; discriminate.
  - repeat constructor; vm_compute; discriminate.
  - vm_compute; discriminate.
  - exists body. split; [exact H1|]. rewrite H3, H4. reflexivity.
Defined.

Lemma quarter_sum_bound rows :
  Forall (fun row => 0 <= sks row) rows -> total_credits rows < 2 ^ 49 ->
  0 <= quarter_sum rows < 2 ^ 53.
Proof.
  intros Hs Ht. pose proof (quarter_sum_range rows Hs). lia.
Qed.

(** X7. For non-negative credit hours with a total below 2^49 the weighted
    sum is a multiple of 0.25 that the final rounding leaves as it is: the
    response holds the sum of the products exactly. *)
Theorem returned_sum_is_exact (n : string) (rows : list krs_row) :
  rows <> [] ->
  Forall has_grade rows ->
  Forall (fun row => 0 <= sks row) rows ->
  total_credits rows < 2 ^ 49 ->
  exists body,
    calculate_ips_rows n rows = Ok (VDict body) /\
    dict_get body "total_bobot_sks" = Some (VFloat (exact (quarter_sum rows) (-2))) /\
    unrounded_totals rows
    = Ok (exact (quarter_sum rows) (-2), total_credits rows, gpa rows).
Proof.
  intros Hne Hg Hs Ht.
  destruct (bounded_rows_fit rows Hs Ht) as [Hf Hft].
  destruct (calculate_ips_rows_graded n rows Hne Hg Hf Hft) as [info ->].
  rewrite weighted_sum_exact by assumption.
  rewrite round2_exact_quarters by (apply quarter_sum_bound; assumption).
  eexists. split; [reflexivity|]. split.
  - reflexivity.
  - unfold unrounded_totals. rewrite accumulate_graded by assumption. cbn [bind].
    rewrite Z.add_0_l, ips_of_fits by assumption. cbn [bind].
    rewrite <- (weighted_sum_exact rows Hs Ht). reflexivity.
Qed.

Lemma returned_sum_is_exact_witness :
  exists body,
    calculate_ips_rows "12345" [enrollment (Some "B-") 3; enrollment (Some "C+") 1]
    = Ok (VDict body) /\
    dict_get body "total_bobot_sks" = Some (VFloat (PyFloat.decimal 1075 2)).
Proof.
  destruct (returned_sum_is_exact "12345"
              [enrollment (Some "B-") 3; enrollment (Some "C+") 1])
    as (body & H1 & H2 & _).
  - discriminate.
  - repeat constructor; discriminate.
  - repeat constructor; cbn; lia.
  - vm_compute. reflexivity.
  - exists body. split; [exact H1|]. rewrite H2. vm_compute. reflexivity.
Defined.

Lemma quarter_sum_uniform rows q :
  Forall (fun row => row_quarters row = q) rows ->
  quarter_sum rows = q * total_credits rows.
Proof.
  unfold quarter_sum, total_credits.
  induction 1 as [|row rows Hrow _ IH]; cbn [map fold_right]; [lia|].
  rewrite IH, Hrow. ring.
Qed.

(** X8. When every row carries the same letter grade, in any case, and the
    credit hours are non-negative with a total between 1 and 2^49, the GPA
    is the weight of that grade, before and after rounding. *)
Theorem uniform_grade_gpa (n : string) (rows : list krs_row) (g : string) :
  Forall (fun row => exists s, nilai row = Some s /\ upper s = upper g) rows ->
  Forall (fun row => 0 <= sks row) rows ->
  0 < total_credits rows < 2 ^ 49 ->
  exists tb body,
    unrounded_totals rows = Ok (tb, total_credits rows, grade_weight g) /\
    calculate_ips_rows n rows = Ok (VDict body) /\
    dict_get body "ips" = Some (VFloat (grade_weight g)).
Proof.
  intros Hsame Hs Ht.
  assert (Hne : rows <> []) by (intros ->; cbn in Ht; lia).
  assert (Hg : Forall has_grade rows).
  { eapply Forall_impl; [|exact Hsame]. intros row (s & E & _). unfold has_grade. congruence. }
  assert (Hq : Forall (fun row => row_quarters row = quarters g) rows).
  { eapply Forall_impl; [|exact Hsame]. intros row (s & E & Eu).
    unfold row_quarters, quarters. now rewrite E, Eu. }
  pose proof (quarters_range g) as Hr.
  assert (Egpa : gpa rows = grade_weight g).
  { unfold gpa. replace (total_credits rows =? 0) with false by (symmetry; apply Z.eqb_neq; lia).
    rewrite weighted_sum_exact, of_int_ieee_exact by (assumption || lia).
    rewrite (quarter_sum_uniform rows _ Hq), grade_weight_exact.
    apply div_exact_product; try lia; nia. }
  assert (Eround : PyFloat.round2 (grade_weight g) = grade_weight g).
  { rewrite grade_weight_exact. apply round2_exact_quarters. lia. }
  destruct (bounded_rows_fit rows Hs ltac:(lia)) as [Hf Hft].
  destruct (calculate_ips_rows_graded n rows Hne Hg Hf Hft) as [info ->].
  rewrite Egpa, Eround.
  eexists. eexists. split; [|split; reflexivity].
  unfold unrounded_totals. rewrite accumulate_graded by assumption. cbn [bind].
  rewrite Z.add_0_l, ips_of_fits by assumption. cbn [bind].
  change (if total_credits rows =? 0 then zero
          else PyFloat.div (fold_left PyFloat.add (map contribution rows) zero)
                           (PyFloat.of_int_ieee (total_credits rows)))
    with (gpa rows).
  rewrite Egpa. reflexivity.
Qed.

Lemma uniform_grade_gpa_witness :
  exists body,
    calculate_ips_rows "12345" [enrollment (Some "b-") 3; enrollment (Some "B-") 7]
    = Ok (VDict body) /\
    dict_get body "ips" = Some (VFloat (PyFloat.decimal 275 2)).
Proof.
  destruct (uniform_grade_gpa "12345"
              [enrollment (Some "b-") 3; enrollment (Some "B-") 7] "B-")
    as (tb & body & _ & H1 & H2).
  - repeat constructor; eexists; split; reflexivity.
  - repeat constructor; cbn; lia.
  - vm_compute. split; reflexivity.
  - exists body. split; [exact H1|]. rewrite H2. vm_compute. reflexivity.
Defined.

Lemma quarters_zero s :
  upper s = "E" \/ ~ In (upper s) (keys grade_map) -> quarters s = 0.
Proof.
  unfold quarters, dict_get_default. intros [->|Hnot]; [reflexivity|].
  rewrite dict_get_None; [reflexivity|exact Hnot].
Qed.

(** X9. When every row carries grade E or a grade string outside the
    table, with non-negative credit hours totalling less than 2^49, the
    response holds the total of the credit hours, a weighted sum of 0.0 and
    a GPA of 0.0. *)
Theorem zero_weights_zero_gpa (n : string) (rows : list krs_row) :
  rows <> [] ->
  Forall (fun row => exists s, nilai row = Some s /\
                               (upper s = "E" \/ ~ In (upper s) (keys grade_map))) rows ->
  Forall (fun row => 0 <= sks row) rows ->
  total_credits rows < 2 ^ 49 ->
  totals_and_gpa n rows
  = Ok [Some (VInt (total_credits rows));
        Some (VFloat (PyFloat.decimal 0 1)); Some (VFloat (PyFloat.decimal 0 1))].
Proof.
  intros Hne Hz Hs Ht.
  assert (Hg : Forall has_grade rows).
  { eapply Forall_impl; [|exact Hz]. intros row (s & E & _). unfold has_grade. congruence. }
  assert (Hq : Forall (fun row => row_quarters row = 0) rows).
  { eapply Forall_impl; [|exact Hz]. intros row (s & E & H).
    unfold row_quarters. rewrite E. now apply quarters_zero. }
  rewrite totals_and_gpa_exact by assumption.
  rewrite (quarter_sum_uniform rows 0 Hq), Z.mul_0_l.
  pose proof (total_credits_nonneg rows Hs) as H0.
  destruct (Z.eqb_spec (total_credits rows) 0) as [E|E]; [reflexivity|].
  rewrite (exact_finite (total_credits rows)) by lia. reflexivity.
Qed.

Lemma zero_weights_zero_gpa_witness :
  totals_and_gpa "12345" [enrollment (Some "e") 2; enrollment (Some "X") 3]
  = Ok [Some (VInt 5); Some (VFloat (PyFloat.decimal 0 1)); Some (VFloat (PyFloat.decimal 0 1))].
Proof.
  apply (zero_weights_zero_gpa "12345" [enrollment (Some "e") 2; enrollment (Some "X") 3]).
  - discriminate.
  - constructor; [|constructor; [|constructor]].
    + exists "e". split; [reflexivity|]. left. reflexivity.
    + exists "X". split; [reflexivity|]. right. vm_compute. intuition discriminate.
  - repeat constructor; cbn; lia.
  - vm_compute. reflexivity.
Defined.

Lemma totals_and_gpa_same_sums n rows rows' :
  rows <> [] -> rows' <> [] ->
  Forall (fun row => 0 <= sks row) rows -> Forall (fun row => 0 <= sks row) rows' ->
  total_credits rows < 2 ^ 49 ->
  total_credits rows' = total_credits rows ->
  quarter_sum rows' = quarter_sum rows ->
  (Forall has_grade rows <-> Forall has_grade rows') ->
  totals_and_gpa n rows = totals_and_gpa n rows'.
Proof.
  intros Hne Hne' Hs Hs' Ht Et Eq Hiff.
  assert (Ht' : total_credits rows' < 2 ^ 49) by lia.
  destruct (Forall_dec has_grade has_grade_dec rows) as [Hg|Hg].
  - rewrite !totals_and_gpa_exact; try assumption; [|now apply Hiff].
    now rewrite Et, Eq.
  - assert (Hg' : ~ Forall has_grade rows') by tauto.
    destruct (bounded_rows_fit _ Hs Ht) as [Hf _].
    destruct (bounded_rows_fit _ Hs' Ht') as [Hf' _].
    unfold totals_and_gpa, calculate_ips_rows.
    destruct rows as [|r0 rows0]; [congruence|].
    destruct rows' as [|r0' rows0']; [congruence|].
    rewrite !accumulate_null_grade by assumption. reflexivity.
Qed.

(** X10. A graded row of zero credit hours changes neither the totals nor
    the GPA, wherever it stands among rows with non-negative credit hours
    totalling less than 2^49. *)
Theorem zero_credit_row_ignored (n : string) (rows1 rows2 : list krs_row) (row : krs_row) :
  has_grade row ->
  sks row = 0 ->
  (rows1 ++ rows2)%list <> [] ->
  Forall (fun row => 0 <= sks row) (rows1 ++ rows2)%list ->
  total_credits (rows1 ++ rows2)%list < 2 ^ 49 ->
  totals_and_gpa n (rows1 ++ row :: rows2)%list = totals_and_gpa n (rows1 ++ rows2)%list.
Proof.
  intros Hg H0 Hne Hs Ht.
  pose proof (Permutation_middle rows1 rows2 row) as Hp.
  assert (Et : total_credits (rows1 ++ row :: rows2)%list = total_credits (rows1 ++ rows2)%list).
  { rewrite <- (total_credits_perm _ _ Hp). unfold total_credits. cbn [map fold_right]. lia. }
  assert (Eq : quarter_sum (rows1 ++ row :: rows2)%list = quarter_sum (rows1 ++ rows2)%list).
  { rewrite <- (quarter_sum_perm _ _ Hp). unfold quarter_sum. cbn [map fold_right].
    rewrite H0. lia. }
  assert (Hs' : Forall (fun row => 0 <= sks row) (rows1 ++ row :: rows2)%list).
  { eapply Permutation_Forall; [exact Hp|]. constructor; [lia|exact Hs]. }
  symmetry. apply totals_and_gpa_same_sums; try assumption.
  - intros E. apply app_eq_nil in E. destruct E as [_ E]. discriminate.
  - split; intros H.
    + eapply Permutation_Forall; [exact Hp|]. now constructor.
    + apply Permutation_sym in Hp. pose proof (Permutation_Forall Hp H) as H'.
      now inversion H'.
Qed.

Lemma zero_credit_row_ignored_witness :
  totals_and_gpa "12345"
    [enrollment (Some "A") 3; enrollment (Some "E") 0; enrollment (Some "B+") 4;
     enrollment (Some "C") 2]
  = Ok [Some (VInt 9); Some (VFloat (PyFloat.decimal 300 1));
        Some (VFloat (PyFloat.decimal 333 2))].
Proof.
  pose proof (zero_credit_row_ignored "12345" [enrollment (Some "A") 3]
                [enrollment (Some "B+") 4; enrollment (Some "C") 2]
                (enrollment (Some "E") 0)) as H.
  cbn [app] in H. rewrite H.
  - vm_compute. reflexivity.
  - discriminate.
  - reflexivity.
  - discriminate.
  - repeat constructor; cbn; lia.
  - vm_compute. reflexivity.
Defined.

(** X11. A credit-hour count of 2^1024 or more, in absolute value, cannot
    be converted to a float: the request is answered with 500 and the
    message of the [OverflowError], whatever grade the row carries, when
    the rows before it are graded and convert. *)
Theorem huge_credit_hours_overflow (st : Store) (n : string)
        (before after : list krs_row) (row : krs_row) :
  (5 <= len n)%nat ->
  connect_error st = None ->
  select_krs st n = inr (before ++ row :: after)%list ->
  Forall has_grade before ->
  Forall (fun row => fits_float (sks row)) before ->
  has_grade row ->
  2 ^ 1024 <= Z.abs (sks row) ->
  route_ips st (Some n)
  = (ReplyError 500 "Terjadi kesalahan server: int too large to convert to float",
     [EvConnect; EvExecute (SelectKrs n); EvRollback; EvClose]).
Proof.
  intros Hlen Hc Hq Hg Hf Hrow Hbig.
  rewrite (route_ips_fetched st n _ Hlen Hc Hq).
  assert (Hacc : forall acc,
             accumulate (before ++ row :: after)%list acc
             = Raise (Other (PyError "OverflowError" "int too large to convert to float"))).
  { intros [tb ts]. rewrite accumulate_app, accumulate_graded by assumption. cbn [bind accumulate].
    unfold accumulate_row, has_grade in *. destruct (nilai row) as [s|]; [|congruence].
    rewrite convert_grade_to_weight_Some. cbn [bind].
    unfold float_mul_int. rewrite of_int_overflow by assumption. reflexivity. }
  unfold calculate_ips_rows.
  destruct (before ++ row :: after)%list as [|first rest] eqn:E.
  - apply app_eq_nil in E. destruct E as [_ E]. discriminate.
  - rewrite Hacc. reflexivity.
Qed.

Lemma huge_credit_hours_overflow_witness :
  route_ips (store_with [enrollment (Some "A") 3; enrollment (Some "E") (2 ^ 1024)])
            (Some "12345")
  = (ReplyError 500 "Terjadi kesalahan server: int too large to convert to float",
     [EvConnect; EvExecute (SelectKrs "12345"); EvRollback; EvClose]).
Proof.
  apply (huge_credit_hours_overflow
           (store_with [enrollment (Some "A") 3; enrollment (Some "E") (2 ^ 1024)]) "12345"
           [enrollment (Some "A") 3] [] (enrollment (Some "E") (2 ^ 1024))).
  - vm_compute. lia.
  - reflexivity.
  - reflexivity.
  - repeat constructor; discriminate.
  - repeat constructor; vm_compute; discriminate.
  - discriminate.
  - cbn. lia.
Defined.

(* ================================================================== *)
(** * Start-up *)

(** X12. The start-up hook makes no query and ends normally for every
    store.  When the store is up it prints the line of success and the
    calls are connect, commit and close; when [connect] fails it prints
    the error only and makes no other call; when the commit fails it
    prints the line of success and then the error, after a rollback. *)
Theorem startup_event_behaviour (st : Store) :
  (forall q, ~ In (EvExecute q) (snd (startup_event st))) /\
  (connect_error st = None -> commit_error st = None ->
   startup_event st
   = (["Acad Service: Connected to PostgreSQL"], [EvConnect; EvCommit; EvClose])) /\
  (forall e, connect_error st = Some e ->
   startup_event st
   = (["Acad Service: PostgreSQL connection error: " ++ exc_msg e], [EvConnect])) /\
  (forall e, connect_error st = None -> commit_error st = Some e ->
   startup_event st
   = (["Acad Service: Connected to PostgreSQL";
       "Acad Service: PostgreSQL connection error: " ++ exc_msg e],
      [EvConnect; EvCommit; EvRollback; EvClose])).
Proof.
  unfold startup_event, get_db_connection.
  split; [|split; [|split]].
  - intros q. destruct (connect_error st); [|destruct (commit_error st)]; cbn;
      intuition discriminate.
  - intros -> ->. reflexivity.
  - intros e ->. reflexivity.
  - intros e -> ->. reflexivity.
Qed.

Lemma startup_event_behaviour_witness :
  startup_event store_down
  = (["Acad Service: PostgreSQL connection error: connection refused"], [EvConnect]) /\
  startup_event (store_commit_error [])
  = (["Acad Service: Connected to PostgreSQL";
      "Acad Service: PostgreSQL connection error: server closed the connection"],
     [EvConnect; EvCommit; EvRollback; EvClose]).
Proof.
  split.
  - destruct (startup_event_behaviour store_down) as (_ & _ & H & _).
    apply (H (PyError "OperationalError" "connection refused")). reflexivity.
  - destruct (startup_event_behaviour (store_commit_error [])) as (_ & _ & _ & H).
    apply (H (PyError "OperationalError" "server closed the connection")); reflexivity.
Defined.

(* ================================================================== *)
(** * The listing and the store *)

(** X13. The listing makes one of four sequences of driver calls: a failed
    [connect]; the query followed by rollback and close; the query
    followed by commit and close; or the query followed by a failed
    commit, rollback and close.  Its only query is the selection of all
    students, and the list is returned exactly when the sequence is the
    committed one; every other sequence ends in status 500. *)
Theorem listing_driver_calls (st : Store) :
  In (snd (route_mahasiswa st))
     [ [EvConnect];
       [EvConnect; EvExecute SelectMahasiswa; EvRollback; EvClose];
       [EvConnect; EvExecute SelectMahasiswa; EvCommit; EvClose];
       [EvConnect; EvExecute SelectMahasiswa; EvCommit; EvRollback; EvClose] ] /\
  ((exists v, fst (route_mahasiswa st) = Returned v)
   <-> snd (route_mahasiswa st)
       = [EvConnect; EvExecute SelectMahasiswa; EvCommit; EvClose]) /\
  ((exists d, fst (route_mahasiswa st) = ReplyError 500 d)
   <-> snd (route_mahasiswa st)
       <> [EvConnect; EvExecute SelectMahasiswa; EvCommit; EvClose]).
Proof.
  unfold route_mahasiswa, get_mahasiswas, get_db_connection, fetchall.
  destruct (connect_error st) as [e|];
    [|destruct (select_mahasiswa st) as [e|rows]; cbn [bind];
      [|destruct (commit_error st) as [e|]]];
    cbn; (split; [tauto|]); split; split;
    first [ intros [? H]; discriminate
          | intros H; discriminate
          | intros H; exfalso; apply H; reflexivity
          | intros _; discriminate
          | intros _; eexists; reflexivity ].
Qed.
